(** * Investment alert

    A shallow embedding of [investment_alert.py]: a single-pass batch job that
    fetches a price change, two regulatory listings and a news feed for a
    ticker, scores them and notifies the configured Telegram recipients.

    Layout: Python built-ins used by the script, the data records, the
    interface to the outside world (network, file system, console), a small
    state-and-exception monad for the effectful functions, the functions of
    the script in source order, and then the properties. *)

From Stdlib Require Import ZArith List String Ascii Bool Lia.
From Stdlib Require Import PrimFloat DecimalString.
Import ListNotations.

#[local] Set Warnings "-register-all".

Local Open Scope string_scope.
Local Open Scope Z_scope.

(* ================================================================== *)
(** ** Python built-ins *)

(** Text is modelled by [string]; the script only inspects ASCII
    characters (white space, the comma, lower-case letters). *)
Module Py.

(** [str.isspace] on the ASCII range: TAB..CR, FS..US and the space. *)
Definition isspace (c : ascii) : bool :=
  let n := N_of_ascii c in
  (((9 <=? n) && (n <=? 13)) || ((28 <=? n) && (n <=? 32)))%N.

Fixpoint lstrip (s : string) : string :=
  match s with
  | EmptyString => EmptyString
  | String c s' => if isspace c then lstrip s' else s
  end.

Fixpoint rstrip (s : string) : string :=
  match s with
  | EmptyString => EmptyString
  | String c s' =>
      match rstrip s' with
      | EmptyString => if isspace c then EmptyString else String c EmptyString
      | r => String c r
      end
  end.

(** [s.strip()] *)
Definition strip (s : string) : string := rstrip (lstrip s).

Definition upper_char (c : ascii) : ascii :=
  let n := N_of_ascii c in
  if ((97 <=? n) && (n <=? 122))%N then ascii_of_N (n - 32) else c.

(** [s.upper()] *)
Fixpoint upper (s : string) : string :=
  match s with
  | EmptyString => EmptyString
  | String c s' => String (upper_char c) (upper s')
  end.

(** Truth value of a [str]: non-empty. *)
Definition truthy (s : string) : bool :=
  match s with EmptyString => false | String _ _ => true end.

(** [s.split(sep)] for a one-character separator: never the empty list. *)
Fixpoint split (sep : ascii) (s : string) : list string :=
  match s with
  | EmptyString => [EmptyString]
  | String c s' =>
      if Ascii.eqb c sep then EmptyString :: split sep s'
      else match split sep s' with
           | h :: t => String c h :: t
           | [] => [String c EmptyString]
           end
  end.

(** [len(l)] *)
Definition len {A} (l : list A) : Z := Z.of_nat (List.length l).

(** [l[:n]]: the first [n] items, or all but the last [-n] when [n < 0]. *)
Definition slice_to {A} (l : list A) (n : Z) : list A :=
  if n <? 0 then firstn (Z.to_nat (len l + n)) l else firstn (Z.to_nat n) l.

(** [str(n)] for an [int]. *)
Definition str_int (n : Z) : string := NilZero.string_of_int (Z.to_int n).

End Py.

(** Exceptions the script can meet; all of them derive from [Exception]. *)
Inductive exn : Type :=
| ZeroDivisionError
| IndexError
| KeyError (key : string)
| AttributeError (attr : string)
| ExternalError (msg : string).

Inductive outcome (A : Type) : Type :=
| Return (a : A)
| Raise (e : exn).
Arguments Return {A} a.
Arguments Raise {A} e.

(** [l[i]], with Python's negative indices and its [IndexError]. *)
Definition getitem {A} (l : list A) (i : Z) : outcome A :=
  let j := if i <? 0 then Py.len l + i else i in
  if j <? 0 then Raise IndexError
  else match nth_error l (Z.to_nat j) with
       | Some a => Return a
       | None => Raise IndexError
       end.

(* ================================================================== *)
(** ** Data model *)

Module PriceSnapshot.
Record t : Type := mk
  { ticker : string; today_close : float; yesterday_close : float; change_pct : float }.
End PriceSnapshot.

Module FilingRecord.
Record t : Type := mk { date : string; company : string; link : string }.
End FilingRecord.

Module NewsItem.
Record t : Type := mk { title : string; link : string; published : string }.
End NewsItem.

Module TradeRecord.
Record t : Type := mk { date : string; filer : string; link : string }.
End TradeRecord.

Module RunResult.
Record t : Type := mk { ticker : string; score : Z }.
End RunResult.

(* ================================================================== *)
(** ** BeautifulSoup documents *)

Module Bs4.

(** A parsed document: text nodes and tags with their attribute
    dictionary and children. *)
Inductive node : Type :=
| NavigableString (s : string)
| Tag (name : string) (attrs : list (string * string)) (contents : list node).

(** All nodes below [n], in document order. *)
Fixpoint descendants (n : node) : list node :=
  match n with
  | NavigableString _ => []
  | Tag _ _ cs => flat_map (fun c => c :: descendants c) cs
  end.

Definition is_tag (name : string) (n : node) : bool :=
  match n with
  | NavigableString _ => false
  | Tag nm _ _ => String.eqb nm name
  end.

(** [n.find_all(name)] *)
Definition find_all (name : string) (n : node) : list node :=
  filter (is_tag name) (descendants n).

(** [n.find(name)]: the first match, or [None]. *)
Definition find (name : string) (n : node) : option node :=
  hd_error (find_all name n).

(** [n.text]: the strings below [n], concatenated. *)
Fixpoint text (n : node) : string :=
  match n with
  | NavigableString s => s
  | Tag _ _ cs => String.concat "" (map text cs)
  end.

Fixpoint lookup (key : string) (attrs : list (string * string)) : option string :=
  match attrs with
  | [] => None
  | (k, v) :: rest => if String.eqb k key then Some v else lookup key rest
  end.

(** [tag[key]]: the attribute, or [KeyError]. *)
Definition get_attr (n : node) (key : string) : outcome string :=
  match n with
  | NavigableString _ => Raise (KeyError key)
  | Tag _ attrs _ =>
      match lookup key attrs with
      | Some v => Return v
      | None => Raise (KeyError key)
      end
  end.

End Bs4.

(** An entry of a parsed feed; an attribute the feed did not carry is [None]
    and reading it raises [AttributeError]. *)
Module FeedEntry.
Record t : Type := mk
  { title : option string; link : option string; published : option string }.
End FeedEntry.

(* ================================================================== *)
(** ** The outside world *)

(** An argument of [print]. *)
Inductive printed : Type :=
| PStr (s : string)
| PExn (e : exn).

(** What the script does to the outside world, in order. *)
Inductive event : Type :=
| Print (args : list printed)
| SendMessage (chat_id text : string)
| History (ticker period : string)
| HttpGet (url user_agent : string) (timeout : Z)
| FeedParse (url : string)
| OpenRead (path : string).

(** How the outside world answers. Every answer may depend on what has
    happened so far (the trace up to the call), so that the same request can
    succeed once and fail later. *)
Record World : Type :=
  { environ : string -> option string;
    (** [bot.send_message]: [None] when it is delivered. *)
    send_message : list event -> string -> string -> option exn;
    (** the [Close] column of [yf.Ticker(t).history(period)] *)
    history : list event -> string -> string -> outcome (list float);
    (** [requests.get(url, ...).text] *)
    requests_get : list event -> string -> outcome string;
    (** [feedparser.parse(url).entries] *)
    feedparser_parse : list event -> string -> outcome (list FeedEntry.t);
    (** [open(path, "r").readlines()] *)
    readlines : list event -> string -> outcome (list string) }.

(** Pure library functions the script relies on and that are not modelled
    further. *)
Record Library : Type :=
  { BeautifulSoup : string -> Bs4.node;   (* BeautifulSoup(text, "html.parser") *)
    str_float : float -> string;          (* str(x) *)
    format_2f : float -> string }.        (* format(x, ".2f") *)

(* ================================================================== *)
(** ** Effects: the console and network trace, and exceptions *)

Definition M (A : Type) : Type := list event -> outcome A * list event.

Definition ret {A} (a : A) : M A := fun tr => (Return a, tr).

Definition bind {A B} (m : M A) (k : A -> M B) : M B :=
  fun tr =>
    match m tr with
    | (Return a, tr') => k a tr'
    | (Raise e, tr') => (Raise e, tr')
    end.

Definition lift {A} (o : outcome A) : M A := fun tr => (o, tr).

Definition emit (ev : event) : M unit := fun tr => (Return tt, (tr ++ [ev])%list).

(** [try: body  except Exception as e: handler e] *)
Definition try_except {A} (body : M A) (handler : exn -> M A) : M A :=
  fun tr =>
    match body tr with
    | (Return a, tr') => (Return a, tr')
    | (Raise e, tr') => handler e tr'
    end.

(** [for x in xs: s = body x s] *)
Fixpoint for_each {A S} (xs : list A) (body : A -> S -> M S) (s : S) : M S :=
  match xs with
  | [] => ret s
  | x :: xs' => bind (body x s) (for_each xs' body)
  end.

Declare Scope py_scope.
Delimit Scope py_scope with py.
Notation "x <- m ;; k" := (bind m (fun x => k))
  (at level 100, m at next level, right associativity) : py_scope.
Notation "m ;; k" := (bind m (fun _ => k))
  (at level 100, right associativity) : py_scope.

Definition print (args : list printed) : M unit := emit (Print args).

(** The [SendMessage] events of a trace, in order. *)
Fixpoint sends (tr : list event) : list (string * string) :=
  match tr with
  | [] => []
  | SendMessage cid txt :: tr' => (cid, txt) :: sends tr'
  | _ :: tr' => sends tr'
  end.

(* ================================================================== *)
(** ** The script *)

Definition site_origin : string := "https://www.sec.gov".
Definition user_agent : string := "Mozilla/5.0 (compatible; InvestmentAlert/1.0)".
Definition default_tickers : list string := ["MSFT"; "AAPL"; "NVDA"].

(** [score_opportunity] (line 102). [stock_data] is [None] or the dictionary
    built by [get_stock_price]; that dictionary is never empty, hence true
    as a condition, and always has a ["change_pct"], so that the default of
    [.get("change_pct", 0)] is not used. The comparison of a float with the
    integer 5 is the comparison with the float 5, which is exact. *)
Definition score_opportunity (stock_data : option PriceSnapshot.t)
    (filings_count news_count politician_trades_count : Z) : Z :=
  let score := 0 in
  let score :=
    if match stock_data with
       | Some d => PrimFloat.ltb 5 (PrimFloat.abs (PriceSnapshot.change_pct d))
       | None => false
       end
    then score + 3 else score in
  let score := if filings_count >? 0 then score + filings_count * 2 else score in
  let score := if news_count >? 0 then score + news_count else score in
  let score :=
    if politician_trades_count >? 0 then score + politician_trades_count * 2 else score in
  score.

Section Script.

Variable W : World.
Variable L : Library.

Local Open Scope py_scope.

(** *** Configuration, read once (lines 10-19) *)

Definition TELEGRAM_TOKEN : option string := environ W "TELEGRAM_TOKEN".

Definition TELEGRAM_CHAT_IDS : string :=
  match environ W "TELEGRAM_CHAT_IDS" with Some s => s | None => "" end.

Definition LANG : string :=
  match environ W "APP_LANG" with Some s => s | None => "en" end.

Definition CHAT_IDS : list string :=
  map Py.strip
    (filter (fun c => Py.truthy (Py.strip c)) (Py.split "," TELEGRAM_CHAT_IDS)).

(** The bot holds its token; [None] when the notifier is not configured. *)
Definition bot : option string :=
  match TELEGRAM_TOKEN with
  | Some tok =>
      if Py.truthy tok && negb (Nat.eqb (List.length CHAT_IDS) 0)
      then Some tok else None
  | None => None
  end.

(** *** Calls to the outside *)

Definition bot_send_message (chat_id text : string) : M unit :=
  fun tr =>
    match send_message W tr chat_id text with
    | None => (Return tt, (tr ++ [SendMessage chat_id text])%list)
    | Some e => (Raise e, (tr ++ [SendMessage chat_id text])%list)
    end.

Definition yf_history (ticker period : string) : M (list float) :=
  fun tr => (history W tr ticker period, (tr ++ [History ticker period])%list).

Definition http_get_text (url : string) : M string :=
  fun tr => (requests_get W tr url, (tr ++ [HttpGet url user_agent 15])%list).

Definition feed_entries (url : string) : M (list FeedEntry.t) :=
  fun tr => (feedparser_parse W tr url, (tr ++ [FeedParse url])%list).

Definition open_readlines (path : string) : M (list string) :=
  fun tr => (readlines W tr path, (tr ++ [OpenRead path])%list).

(** [x / y] on floats: Python raises when the divisor is zero. *)
Definition float_div (x y : float) : M float :=
  if PrimFloat.eqb y 0 then lift (Raise ZeroDivisionError)
  else ret (PrimFloat.div x y).

(** An attribute of a feed entry. *)
Definition attr (name : string) (v : option string) : M string :=
  match v with
  | Some s => ret s
  | None => lift (Raise (AttributeError name))
  end.

(** *** [send_telegram_message] (line 21) *)

Definition send_loop (b : string) (message : string) (cids : list string) : M unit :=
  for_each cids
    (fun cid _ =>
       try_except (bot_send_message cid message)
         (fun e => print [PStr "Failed to send to"; PStr cid; PExn e]))
    tt.

Definition send_telegram_message (message : string) : M unit :=
  match bot with
  | None => print [PStr "Telegram not configured:"; PStr message]
  | Some b => send_loop b message CHAT_IDS
  end.

(** *** [get_stock_price] (line 32) *)

Definition get_stock_price_body (ticker : string) : M (option PriceSnapshot.t) :=
  hist <- yf_history ticker "2d" ;;
  if Py.len hist <? 2 then ret None
  else
    today_close <- lift (getitem hist (-1)) ;;
    yesterday_close <- lift (getitem hist (-2)) ;;
    q <- float_div (PrimFloat.sub today_close yesterday_close) yesterday_close ;;
    let change_pct := PrimFloat.mul q 100 in
    ret (Some (PriceSnapshot.mk (Py.upper ticker) today_close yesterday_close change_pct)).

Definition get_stock_price (ticker : string) : M (option PriceSnapshot.t) :=
  try_except (get_stock_price_body ticker)
    (fun e => print [PStr "get_stock_price error:"; PExn e] ;; ret None).

(** *** The two table scrapers (lines 47 and 81) *)

(** The link of a name cell: [origin + link_tag['href'] if link_tag else ""]. *)
Definition link_of (cell : Bs4.node) : M string :=
  match Bs4.find "a" cell with
  | Some link_tag =>
      href <- lift (Bs4.get_attr link_tag "href") ;;
      ret (site_origin ++ href)
  | None => ret ""
  end.

Definition filing_row (row : Bs4.node) (filings : list FilingRecord.t)
  : M (list FilingRecord.t) :=
  let cols := Bs4.find_all "td" row in
  if Py.len cols <? 5 then ret filings
  else
    c3 <- lift (getitem cols 3) ;;
    let date_filed := Py.strip (Bs4.text c3) in
    c1 <- lift (getitem cols 1) ;;
    let company_name := Py.strip (Bs4.text c1) in
    filing_link <- link_of c1 ;;
    ret (filings ++ [FilingRecord.mk date_filed company_name filing_link])%list.

Definition get_recent_13f_filings_body (count : Z) : M (list FilingRecord.t) :=
  let url :=
    "https://www.sec.gov/cgi-bin/browse-edgar?action=getcurrent&type=13F-HR&count="
    ++ Py.str_int count in
  r_text <- http_get_text url ;;
  let soup := BeautifulSoup L r_text in
  for_each (tl (Bs4.find_all "tr" soup)) filing_row [].

Definition get_recent_13f_filings (count : Z) : M (list FilingRecord.t) :=
  try_except (get_recent_13f_filings_body count)
    (fun e => print [PStr "get_recent_13f_filings error:"; PExn e] ;; ret []).

Definition trade_row (row : Bs4.node) (trades : list TradeRecord.t)
  : M (list TradeRecord.t) :=
  let cols := Bs4.find_all "td" row in
  if Py.len cols <? 5 then ret trades
  else
    c3 <- lift (getitem cols 3) ;;
    let date_filed := Py.strip (Bs4.text c3) in
    c1 <- lift (getitem cols 1) ;;
    let filer := Py.strip (Bs4.text c1) in
    filing_link <- link_of c1 ;;
    ret (trades ++ [TradeRecord.mk date_filed filer filing_link])%list.

Definition get_recent_politician_trades_body (count : Z) : M (list TradeRecord.t) :=
  let url :=
    "https://www.sec.gov/cgi-bin/browse-edgar?action=getcurrent&type=form4&count="
    ++ Py.str_int count in
  r_text <- http_get_text url ;;
  let soup := BeautifulSoup L r_text in
  for_each (tl (Bs4.find_all "tr" soup)) trade_row [].

Definition get_recent_politician_trades (count : Z) : M (list TradeRecord.t) :=
  try_except (get_recent_politician_trades_body count)
    (fun e => print [PStr "get_recent_politician_trades error:"; PExn e] ;; ret []).

(** *** [get_google_news_rss] (line 68) *)

Definition news_entry (entry : FeedEntry.t) (news_items : list NewsItem.t)
  : M (list NewsItem.t) :=
  title <- attr "title" (FeedEntry.title entry) ;;
  link <- attr "link" (FeedEntry.link entry) ;;
  let published :=
    match FeedEntry.published entry with Some p => p | None => "" end in
  ret (news_items ++ [NewsItem.mk title link published])%list.

Definition get_google_news_rss_body (query : string) (max_items : Z)
  : M (list NewsItem.t) :=
  let rss_url :=
    "https://news.google.com/rss/search?q=" ++ query ++ "&hl=en-US&gl=US&ceid=US:en" in
  entries <- feed_entries rss_url ;;
  for_each (Py.slice_to entries max_items) news_entry [].

Definition get_google_news_rss (query : string) (max_items : Z) : M (list NewsItem.t) :=
  try_except (get_google_news_rss_body query max_items)
    (fun e => print [PStr "get_google_news_rss error:"; PExn e] ;; ret []).

(** *** [load_tickers] (line 115) *)

(** [limit] is [None] or an [int]; [lines[:limit] if limit else lines]. *)
Definition truncate (lines : list string) (limit : option Z) : list string :=
  match limit with
  | None => lines
  | Some n => if n =? 0 then lines else Py.slice_to lines n
  end.

Definition load_tickers_body (path : string) (limit : option Z) : M (list string) :=
  raw <- open_readlines path ;;
  let lines :=
    map (fun l => Py.upper (Py.strip l))
      (filter (fun l => Py.truthy (Py.strip l)) raw) in
  ret (truncate lines limit).

Definition load_tickers (path : string) (limit : option Z) : M (list string) :=
  try_except (load_tickers_body path limit)
    (fun e => print [PStr "load_tickers error:"; PExn e] ;; ret default_tickers).

(** *** [run_and_notify] (line 125) *)

Definition counts_line (l13f lnews ltrades : string) (nf nn nt : Z) : string :=
  l13f ++ Py.str_int nf ++ lnews ++ Py.str_int nn ++ ltrades ++ Py.str_int nt
  ++ String "010" "".

Definition price_line (lprice lchange lnone : string)
    (stock_data : option PriceSnapshot.t) : string :=
  match stock_data with
  | Some d =>
      lprice ++ str_float L (PriceSnapshot.today_close d) ++ lchange
      ++ format_2f L (PriceSnapshot.change_pct d) ++ "%" ++ String "010" ""
  | None => lnone ++ String "010" ""
  end.

Definition build_message (ticker : string) (stock_data : option PriceSnapshot.t)
    (nf nn nt score : Z) : string :=
  if String.eqb LANG "he" then
    "🔔 הזדמנות: " ++ ticker ++ String "010" ""
    ++ price_line "מחיר: " " | שינוי: " "אין מידע מחיר" stock_data
    ++ counts_line "13F: " " | חדשות: " " | רכישות פוליטיקאים: " nf nn nt
    ++ "ניקוד: " ++ Py.str_int score
  else
    "🔔 Opportunity: " ++ ticker ++ String "010" ""
    ++ price_line "Price: " " | Change: " "No price data" stock_data
    ++ counts_line "13F: " " | News: " " | Politician trades: " nf nn nt
    ++ "Score: " ++ Py.str_int score.

Definition run_and_notify (ticker : string) : M RunResult.t :=
  stock_data <- get_stock_price ticker ;;
  filings <- get_recent_13f_filings 10 ;;
  news <- get_google_news_rss ticker 5 ;;
  politician_trades <- get_recent_politician_trades 10 ;;
  let score :=
    score_opportunity stock_data (Py.len filings) (Py.len news) (Py.len politician_trades) in
  let message :=
    build_message ticker stock_data
      (Py.len filings) (Py.len news) (Py.len politician_trades) score in
  send_telegram_message message ;;
  ret (RunResult.mk ticker score).

End Script.

(* ================================================================== *)
(** ** Vocabulary of the properties *)

(** A function that guards [body] fails soft: it always returns normally,
    and when [body] raises it logs the exception under [label] and returns
    [default]. *)
Definition fails_soft {A} (f body : M A) (label : string) (default : A) : Prop :=
  forall tr,
    (exists a tr', f tr = (Return a, tr'))
    /\ (forall e tr',
           body tr = (Raise e, tr') ->
           f tr = (Return default, (tr' ++ [Print [PStr label; PExn e]])%list)).

(** Column [i] of a table row. *)
Definition cell (row : Bs4.node) (i : nat) : Bs4.node :=
  nth i (Bs4.find_all "td" row) (Bs4.NavigableString "").

(** The rows a scraper keeps: all but the first, with at least 5 columns. *)
Definition data_rows (soup : Bs4.node) : list Bs4.node :=
  filter (fun row => 5 <=? Py.len (Bs4.find_all "td" row)) (tl (Bs4.find_all "tr" soup)).

(** The first anchor of the name cell, if any, carries an [href]. *)
Definition link_ok (row : Bs4.node) : bool :=
  match Bs4.find "a" (cell row 1) with
  | Some a => match Bs4.get_attr a "href" with Return _ => true | Raise _ => false end
  | None => true
  end.

(** The absolute link of a row: the site origin before the [href] of the
    name cell's anchor, or the empty string without an anchor. *)
Definition row_link (row : Bs4.node) : string :=
  match Bs4.find "a" (cell row 1) with
  | Some a =>
      match Bs4.get_attr a "href" with
      | Return href => site_origin ++ href
      | Raise _ => ""
      end
  | None => ""
  end.

(** The record of a kept row, for either scraper. *)
Definition row_record {R} (mk : string -> string -> string -> R) (row : Bs4.node) : R :=
  mk (Py.strip (Bs4.text (cell row 3))) (Py.strip (Bs4.text (cell row 1))) (row_link row).

(** One turn of either scraper's loop, over the record constructor. *)
Definition table_row {R} (mk : string -> string -> string -> R)
    (row : Bs4.node) (acc : list R) : M (list R) :=
  let cols := Bs4.find_all "td" row in
  if Py.len cols <? 5 then ret acc
  else
    bind (lift (getitem cols 3)) (fun c3 =>
    bind (lift (getitem cols 1)) (fun c1 =>
    bind (link_of c1) (fun filing_link =>
    ret (acc ++ [mk (Py.strip (Bs4.text c3)) (Py.strip (Bs4.text c1)) filing_link])%list))).

Definition url_13f (count : Z) : string :=
  "https://www.sec.gov/cgi-bin/browse-edgar?action=getcurrent&type=13F-HR&count="
  ++ Py.str_int count.

Definition url_form4 (count : Z) : string :=
  "https://www.sec.gov/cgi-bin/browse-edgar?action=getcurrent&type=form4&count="
  ++ Py.str_int count.

Definition news_url (query : string) : string :=
  "https://news.google.com/rss/search?q=" ++ query ++ "&hl=en-US&gl=US&ceid=US:en".

(** The attribute the news lister reads first and does not find, if any:
    the title is read before the link, and [published] has a default. *)
Definition missing_attr (entry : FeedEntry.t) : option string :=
  match FeedEntry.title entry, FeedEntry.link entry with
  | None, _ => Some "title"
  | Some _, None => Some "link"
  | Some _, Some _ => None
  end.

Fixpoint first_missing (entries : list FeedEntry.t) : option string :=
  match entries with
  | [] => None
  | entry :: rest =>
      match missing_attr entry with
      | Some a => Some a
      | None => first_missing rest
      end
  end.

Definition or_empty (v : option string) : string :=
  match v with Some s => s | None => "" end.

(** The item of a feed entry. *)
Definition news_item (entry : FeedEntry.t) : NewsItem.t :=
  NewsItem.mk (or_empty (FeedEntry.title entry)) (or_empty (FeedEntry.link entry))
    (or_empty (FeedEntry.published entry)).

(** The requests among the events of a trace: everything but console
    output and message sends. *)
Definition is_request (ev : event) : bool :=
  match ev with
  | Print _ | SendMessage _ _ => false
  | History _ _ | HttpGet _ _ _ | FeedParse _ | OpenRead _ => true
  end.

Definition requests_of (tr : list event) : list event := filter is_request tr.

(** A text that does not start with white space. *)
Definition no_lead (s : string) : Prop :=
  match s with
  | EmptyString => True
  | String c _ => Py.isspace c = false
  end.

(* ================================================================== *)
(** ** Sample worlds *)

Module Sample.

Import Bs4.

Definition td (contents : list node) : node := Tag "td" [] contents.
Definition tr_ (cells : list node) : node := Tag "tr" [] cells.
Definition page (rows : list node) : node :=
  Tag "[document]" [] [Tag "html" [] [Tag "body" [] [Tag "table" [] rows]]].

Definition header_row : node :=
  tr_ [Tag "th" [] [NavigableString "Form"]; Tag "th" [] [NavigableString "Company"]].

(** A full row whose name cell links to the filing. *)
Definition acme_row : node :=
  tr_ [td [NavigableString "13F-HR"];
       td [NavigableString " "; Tag "a" [("href", "/Archives/acme.htm")] [NavigableString "Acme Corp"];
           NavigableString " "];
       td [NavigableString "0001"];
       td [NavigableString " 2024-05-01 "];
       td [NavigableString "12 KB"]].

(** A full row without an anchor. *)
Definition plain_row : node :=
  tr_ [td [NavigableString "13F-HR"]; td [NavigableString "Beta LLC"];
       td [NavigableString "0002"]; td [NavigableString "2024-05-02"];
       td [NavigableString "9 KB"]].

(** A separator row with too few columns. *)
Definition short_row : node := tr_ [td [NavigableString "--"]; td []].

(** A full row whose anchor is a named target without [href]. *)
Definition anchor_row : node :=
  tr_ [td [NavigableString "13F-HR"];
       td [Tag "a" [("name", "top")] [NavigableString "Gamma Inc"]];
       td [NavigableString "0003"]; td [NavigableString "2024-05-03"];
       td [NavigableString "7 KB"]].

Definition good_page : node := page [header_row; acme_row; short_row; plain_row].
Definition bad_page : node := page [header_row; acme_row; anchor_row].

(** A library whose parser yields [doc] whatever the text; formatting of
    floats is left symbolic. *)
Definition library (doc : node) : Library :=
  {| BeautifulSoup := fun _ => doc;
     str_float := fun _ => "<float>";
     format_2f := fun _ => "<float:.2f>" |}.

Definition unreachable : exn := ExternalError "network unreachable".
Definition no_such_file : exn := ExternalError "No such file or directory".

(** Nothing is configured, no file exists and every request fails. *)
Definition offline : World :=
  {| environ := fun _ => None;
     send_message := fun _ _ _ => Some unreachable;
     history := fun _ _ _ => Raise unreachable;
     requests_get := fun _ _ => Raise unreachable;
     feedparser_parse := fun _ _ => Raise unreachable;
     readlines := fun _ _ => Raise no_such_file |}.

Definition env_configured (key : string) : option string :=
  if String.eqb key "TELEGRAM_TOKEN" then Some "t0k3n"
  else if String.eqb key "TELEGRAM_CHAT_IDS" then Some "111, 222,,333"
  else None.

Definition feed : list FeedEntry.t :=
  [FeedEntry.mk (Some "Stock jumps") (Some "https://news.example/1") (Some "Mon");
   FeedEntry.mk (Some "Stock falls") (Some "https://news.example/2") None].

(** Everything answers; recipient 222 cannot be reached; the ticker file
    holds [lines]; the closes are [closes]. *)
Definition online (closes : list float) (lines : list string) : World :=
  {| environ := env_configured;
     send_message := fun _ cid _ => if String.eqb cid "222" then Some unreachable else None;
     history := fun _ _ _ => Return closes;
     requests_get := fun _ _ => Return "<html>...</html>";
     feedparser_parse := fun _ _ => Return feed;
     readlines := fun _ _ => Return lines |}.

(** Only the feed answers, and its one entry has no title. *)
Definition untitled_feed : World :=
  {| environ := fun _ => None;
     send_message := fun _ _ _ => Some unreachable;
     history := fun _ _ _ => Raise unreachable;
     requests_get := fun _ _ => Raise unreachable;
     feedparser_parse :=
       fun _ _ => Return [FeedEntry.mk None (Some "https://news.example/3") None];
     readlines := fun _ _ => Raise no_such_file |}.

(** Configured, and every recipient can be reached. *)
Definition reliable : World :=
  {| environ := env_configured;
     send_message := fun _ _ _ => None;
     history := fun _ _ _ => Raise unreachable;
     requests_get := fun _ _ => Return "<html>...</html>";
     feedparser_parse := fun _ _ => Return feed;
     readlines := fun _ _ => Raise no_such_file |}.

(** A listing with its header and nothing else. *)
Definition empty_page : node := page [header_row].

Definition newline : string := String "010" "".

Definition ticker_lines : list string :=
  ["msft" ++ newline; "  " ++ newline; " aapl " ++ newline; "nvda"].

Definition msft_drop : PriceSnapshot.t := PriceSnapshot.mk "MSFT" 92.5 100 (-7.5).
Definition msft_flat : PriceSnapshot.t := PriceSnapshot.mk "MSFT" 101 100 1.

End Sample.

(* ================================================================== *)
(** ** Proof steps *)

(** The handler of a guard has printed its line and returned. *)
Ltac handler_logs :=
  unfold bind, print, emit, ret; rewrite <- app_assoc; reflexivity.

(* ================================================================== *)
(** ** Properties of the scorer *)

(** The price term of the score: price data is present and its change is
    above five per cent in absolute value. *)
Definition big_move (stock_data : option PriceSnapshot.t) : bool :=
  match stock_data with
  | Some d => PrimFloat.ltb 5 (PrimFloat.abs (PriceSnapshot.change_pct d))
  | None => false
  end.

(** The contribution of one count with weight [w]: nothing unless the count
    is positive. *)
Definition term (w count : Z) : Z := if count >? 0 then count * w else 0.

Lemma score_opportunity_terms stock_data f n t :
  score_opportunity stock_data f n t
  = (if big_move stock_data then 3 else 0) + term 2 f + term 1 n + term 2 t.
Proof.
  unfold score_opportunity, term, big_move. cbv zeta.
  destruct stock_data as [d|];
    [destruct (PrimFloat.ltb 5 (PrimFloat.abs (PriceSnapshot.change_pct d)))|];
    destruct (f >? 0), (n >? 0), (t >? 0); lia.
Qed.

Lemma term_nonneg w count : 0 <= w -> 0 <= term w count.
Proof.
  intros Hw. unfold term. destruct (Z.gtb_spec count 0); nia.
Qed.

Lemma term_of_nonneg w count : 0 <= count -> term w count = w * count.
Proof.
  intros Hc. unfold term.
  destruct (Z.gtb_spec count 0); [lia | replace count with 0 by lia; lia].
Qed.

Lemma term_monotone w a b : 0 <= w -> a <= b -> term w a <= term w b.
Proof.
  intros Hw Hab. unfold term.
  destruct (Z.gtb_spec a 0), (Z.gtb_spec b 0); nia.
Qed.

Lemma score_opportunity_nonneg stock_data f n t :
  0 <= score_opportunity stock_data f n t.
Proof.
  rewrite score_opportunity_terms.
  pose proof (term_nonneg 2 f ltac:(lia)).
  pose proof (term_nonneg 1 n ltac:(lia)).
  pose proof (term_nonneg 2 t ltac:(lia)).
  destruct (big_move stock_data); lia.
Qed.

(** C1: on non-negative counts the score is three times the price term plus
    twice the filings, the news and twice the trades; the two worked examples
    of the specification give 8 and 5. *)
Theorem score_opportunity_formula :
  (forall stock_data filings_count news_count politician_trades_count,
      0 <= filings_count -> 0 <= news_count -> 0 <= politician_trades_count ->
      score_opportunity stock_data filings_count news_count politician_trades_count
      = 3 * (if big_move stock_data then 1 else 0)
        + 2 * filings_count + news_count + 2 * politician_trades_count)
  /\ score_opportunity None 3 0 1 = 8
  /\ (forall d, PriceSnapshot.change_pct d = (-7.5)%float ->
                score_opportunity (Some d) 0 2 0 = 5).
Proof.
  split; [|split].
  - intros sd f n t Hf Hn Ht.
    rewrite score_opportunity_terms, !term_of_nonneg by assumption.
    destruct (big_move sd); lia.
  - reflexivity.
  - intros d Hd. unfold score_opportunity. rewrite Hd. reflexivity.
Qed.

Lemma score_opportunity_formula_witness :
  score_opportunity
    (Some Sample.msft_drop) 4 2 1 = 3 * 1 + 2 * 4 + 2 + 2 * 1
  /\ score_opportunity (Some Sample.msft_drop) 0 2 0 = 5.
Proof.
  split.
  - apply (proj1 score_opportunity_formula
             (Some Sample.msft_drop) 4 2 1); lia.
  - apply (proj2 (proj2 score_opportunity_formula)
             Sample.msft_drop); reflexivity.
Defined.

(** C8: the score never decreases when one of the three counts grows, nor
    when the price change goes from at most five per cent (or no price data)
    to above five per cent. *)
Theorem score_opportunity_monotone :
  (forall stock_data f f' n t,
      f <= f' -> score_opportunity stock_data f n t <= score_opportunity stock_data f' n t)
  /\ (forall stock_data f n n' t,
      n <= n' -> score_opportunity stock_data f n t <= score_opportunity stock_data f n' t)
  /\ (forall stock_data f n t t',
      t <= t' -> score_opportunity stock_data f n t <= score_opportunity stock_data f n t')
  /\ (forall d stock_data' f n t,
      PrimFloat.ltb 5 (PrimFloat.abs (PriceSnapshot.change_pct d)) = true ->
      stock_data' = None
      \/ (exists d', stock_data' = Some d'
                     /\ PrimFloat.leb (PrimFloat.abs (PriceSnapshot.change_pct d')) 5 = true) ->
      score_opportunity stock_data' f n t <= score_opportunity (Some d) f n t).
Proof.
  repeat split.
  - intros sd f f' n t H. rewrite !score_opportunity_terms.
    pose proof (term_monotone 2 f f' ltac:(lia) H). lia.
  - intros sd f n n' t H. rewrite !score_opportunity_terms.
    pose proof (term_monotone 1 n n' ltac:(lia) H). lia.
  - intros sd f n t t' H. rewrite !score_opportunity_terms.
    pose proof (term_monotone 2 t t' ltac:(lia) H). lia.
  - intros d sd' f n t Hd _. rewrite !score_opportunity_terms.
    simpl big_move at 2. rewrite Hd. destruct (big_move sd'); lia.
Qed.

Lemma score_opportunity_monotone_witness :
  score_opportunity None (-2) 1 0 <= score_opportunity None 3 1 0
  /\ score_opportunity (Some Sample.msft_drop) 3 0 1
     <= score_opportunity (Some Sample.msft_drop) 3 2 1
  /\ score_opportunity (Some Sample.msft_flat) 3 2 (-1)
     <= score_opportunity (Some Sample.msft_flat) 3 2 0
  /\ score_opportunity (Some Sample.msft_flat) 1 1 1
     <= score_opportunity (Some Sample.msft_drop) 1 1 1.
Proof.
  split; [|split; [|split]].
  - apply (proj1 score_opportunity_monotone None (-2) 3 1 0). lia.
  - apply (proj1 (proj2 score_opportunity_monotone) (Some Sample.msft_drop) 3 0 2 1).
    lia.
  - apply (proj1 (proj2 (proj2 score_opportunity_monotone))
             (Some Sample.msft_flat) 3 2 (-1) 0).
    lia.
  - apply (proj2 (proj2 (proj2 score_opportunity_monotone))
             Sample.msft_drop
             (Some Sample.msft_flat) 1 1 1).
    + reflexivity.
    + right. exists Sample.msft_flat. split; reflexivity.
Defined.

(** C9: the score is never negative, whatever the price data and whichever
    integers (negative ones included) are passed as counts, and it has no
    upper bound. *)
Theorem score_opportunity_nonneg_uncapped :
  (forall stock_data f n t, 0 <= score_opportunity stock_data f n t)
  /\ (forall bound, exists stock_data f n t, bound < score_opportunity stock_data f n t).
Proof.
  split.
  - intros sd f n t. apply score_opportunity_nonneg.
  - intros bound. exists None, 0, (Z.max 0 bound + 1), 0.
    rewrite score_opportunity_terms. simpl big_move.
    rewrite !term_of_nonneg by lia. lia.
Qed.

(* ================================================================== *)
(** ** Properties of the notifier *)

Local Open Scope list_scope.

Lemma sends_app tr1 tr2 : sends (tr1 ++ tr2) = sends tr1 ++ sends tr2.
Proof.
  induction tr1 as [|ev tr1 IH]; [reflexivity|].
  destruct ev; simpl; rewrite IH; reflexivity.
Qed.

(** The notifier is unconfigured exactly when the credential is unset or
    empty, or no recipient is left after parsing the list. *)
Lemma bot_unset_iff W :
  bot W = None
  <-> (TELEGRAM_TOKEN W = None \/ TELEGRAM_TOKEN W = Some ""%string \/ CHAT_IDS W = []).
Proof.
  unfold bot. destruct (TELEGRAM_TOKEN W) as [tok|].
  - destruct tok as [|c tok]; simpl.
    + split; auto.
    + destruct (CHAT_IDS W) as [|cid cids]; simpl.
      * split; auto.
      * split; [discriminate|]. intros [H|[H|H]]; discriminate.
  - split; auto.
Qed.

(** C5: without a credential or without recipients the message goes to the
    console, nothing is sent, and the call returns normally. *)
Theorem send_telegram_message_unconfigured W message tr :
  TELEGRAM_TOKEN W = None \/ TELEGRAM_TOKEN W = Some ""%string \/ CHAT_IDS W = [] ->
  bot W = None
  /\ send_telegram_message W message tr
     = (Return tt, tr ++ [Print [PStr "Telegram not configured:"; PStr message]])
  /\ sends (snd (send_telegram_message W message tr)) = sends tr.
Proof.
  intros H. apply bot_unset_iff in H.
  assert (Hrun : send_telegram_message W message tr
                 = (Return tt, tr ++ [Print [PStr "Telegram not configured:"; PStr message]])).
  { unfold send_telegram_message. rewrite H. reflexivity. }
  repeat split; [assumption..|].
  rewrite Hrun. simpl. rewrite sends_app. simpl. apply app_nil_r.
Qed.

(** One turn of the loop over the recipients. *)
Lemma send_loop_cons W b message c cids tr :
  send_loop W b message (c :: cids) tr
  = match send_message W tr c message with
    | None => send_loop W b message cids (tr ++ [SendMessage c message])
    | Some e =>
        send_loop W b message cids
          (tr ++ [SendMessage c message; Print [PStr "Failed to send to"; PStr c; PExn e]])
    end.
Proof.
  unfold send_loop. simpl. unfold bind, try_except, bot_send_message.
  destruct (send_message W tr c message) as [e|]; [|reflexivity].
  unfold print, emit. rewrite <- app_assoc. reflexivity.
Qed.

(** The loop over the recipients, for any list of them. *)
Lemma send_loop_spec W b message cids :
  forall tr, exists tr',
    send_loop W b message cids tr = (Return tt, tr ++ tr')
    /\ sends tr' = map (fun cid => (cid, message)) cids
    /\ (forall pre post cid txt e,
           tr' = pre ++ SendMessage cid txt :: post ->
           send_message W (tr ++ pre) cid txt = Some e ->
           exists post',
             post = Print [PStr "Failed to send to"; PStr cid; PExn e] :: post').
Proof.
  induction cids as [|c cids IH]; intros tr.
  - exists []. repeat split.
    + unfold send_loop. simpl. unfold ret. rewrite app_nil_r. reflexivity.
    + intros pre post cid txt e Heq. destruct pre; discriminate.
  - rewrite send_loop_cons.
    destruct (send_message W tr c message) as [e0|] eqn:Hsend.
    + (* the send fails: it is logged and the loop goes on *)
      destruct (IH (tr ++ [SendMessage c message;
                           Print [PStr "Failed to send to"; PStr c; PExn e0]]))
        as (tr'' & Hrun & Hsends & Hlog).
      exists (SendMessage c message
                :: Print [PStr "Failed to send to"; PStr c; PExn e0] :: tr'').
      repeat split.
      * rewrite Hrun. rewrite <- !app_assoc. reflexivity.
      * simpl. rewrite Hsends. reflexivity.
      * intros pre post cid txt e Heq Hfail.
        destruct pre as [|ev pre].
        { simpl in Heq. injection Heq as Hc Hm Hp. subst cid txt post.
          rewrite app_nil_r in Hfail. rewrite Hfail in Hsend.
          injection Hsend as He. subst e0. eauto. }
        simpl in Heq. injection Heq as Hev Heq. subst ev.
        destruct pre as [|ev pre]; [discriminate|].
        simpl in Heq. injection Heq as Hev Heq. subst ev.
        apply (Hlog pre post cid txt e Heq).
        rewrite <- !app_assoc. exact Hfail.
    + (* the send succeeds *)
      destruct (IH (tr ++ [SendMessage c message])) as (tr'' & Hrun & Hsends & Hlog).
      exists (SendMessage c message :: tr'').
      repeat split.
      * rewrite Hrun. rewrite <- !app_assoc. reflexivity.
      * simpl. rewrite Hsends. reflexivity.
      * intros pre post cid txt e Heq Hfail.
        destruct pre as [|ev pre].
        { simpl in Heq. injection Heq as Hc Hm Hp. subst cid txt post.
          rewrite app_nil_r in Hfail. congruence. }
        simpl in Heq. injection Heq as Hev Heq. subst ev.
        apply (Hlog pre post cid txt e Heq).
        rewrite <- !app_assoc. exact Hfail.
Qed.

(** C6: a configured notifier returns normally after attempting one send per
    recipient, in the order of the list; an attempt that fails is followed by
    its log line and the remaining recipients are still attempted. *)
Theorem send_telegram_message_configured W b message tr :
  bot W = Some b ->
  exists tr',
    send_telegram_message W message tr = (Return tt, tr ++ tr')
    /\ sends tr' = map (fun cid => (cid, message)) (CHAT_IDS W)
    /\ (forall pre post cid txt e,
           tr' = pre ++ SendMessage cid txt :: post ->
           send_message W (tr ++ pre) cid txt = Some e ->
           exists post',
             post = Print [PStr "Failed to send to"; PStr cid; PExn e] :: post').
Proof.
  intros Hbot. unfold send_telegram_message. rewrite Hbot.
  apply send_loop_spec.
Qed.

Example chat_ids_parsed :
  CHAT_IDS (Sample.online [] []) = ["111"; "222"; "333"]%string.
Proof. reflexivity. Qed.

Example send_three_recipients :
  send_telegram_message (Sample.online [] []) "hello" []
  = (Return tt,
     [SendMessage "111" "hello";
      SendMessage "222" "hello";
      Print [PStr "Failed to send to"; PStr "222"; PExn Sample.unreachable];
      SendMessage "333" "hello"]).
Proof. reflexivity. Qed.

Lemma send_telegram_message_unconfigured_witness :
  bot Sample.offline = None
  /\ send_telegram_message Sample.offline "hello" []
     = (Return tt, [] ++ [Print [PStr "Telegram not configured:"; PStr "hello"]])
  /\ sends (snd (send_telegram_message Sample.offline "hello" [])) = sends [].
Proof.
  apply (send_telegram_message_unconfigured Sample.offline "hello" []).
  left. reflexivity.
Defined.

Lemma send_telegram_message_configured_witness :
  exists tr',
    send_telegram_message (Sample.online [] []) "hello" [] = (Return tt, [] ++ tr')
    /\ sends tr' = map (fun cid => (cid, "hello"%string)) (CHAT_IDS (Sample.online [] []))
    /\ (forall pre post cid txt e,
           tr' = pre ++ SendMessage cid txt :: post ->
           send_message (Sample.online [] []) ([] ++ pre) cid txt = Some e ->
           exists post',
             post = Print [PStr "Failed to send to"; PStr cid; PExn e] :: post').
Proof.
  apply (send_telegram_message_configured (Sample.online [] []) "t0k3n" "hello" []).
  reflexivity.
Defined.

(* ================================================================== *)
(** ** Guards *)

Lemma try_except_return {A} (body : M A) handler tr a tr' :
  body tr = (Return a, tr') -> try_except body handler tr = (Return a, tr').
Proof. intros H. unfold try_except. rewrite H. reflexivity. Qed.

Lemma try_except_raise {A} (body : M A) handler tr e tr' :
  body tr = (Raise e, tr') -> try_except body handler tr = handler e tr'.
Proof. intros H. unfold try_except. rewrite H. reflexivity. Qed.

(** The shape shared by the five guarded functions of the script. *)
Lemma guard_fails_soft {A} (body : M A) (label : string) (default : A) :
  fails_soft
    (try_except body (fun e => bind (print [PStr label; PExn e]) (fun _ => ret default)))
    body label default.
Proof.
  intros tr. split.
  - destruct (body tr) as [[a|e] tr'] eqn:Hbody.
    + exists a, tr'. apply try_except_return. exact Hbody.
    + exists default, (tr' ++ [Print [PStr label; PExn e]]).
      rewrite (try_except_raise _ _ _ _ _ Hbody). reflexivity.
  - intros e tr' Hbody. rewrite (try_except_raise _ _ _ _ _ Hbody). reflexivity.
Qed.

(* ================================================================== *)
(** ** Properties of the ticker loader *)

Lemma slice_to_nil {A} n : Py.slice_to (@nil A) n = [].
Proof. unfold Py.slice_to. destruct (n <? 0); apply firstn_nil. Qed.

Lemma load_tickers_readable W path limit tr raw :
  readlines W tr path = Return raw ->
  load_tickers W path limit tr
  = (Return (truncate
               (map (fun l => Py.upper (Py.strip l))
                  (filter (fun l => Py.truthy (Py.strip l)) raw)) limit),
     tr ++ [OpenRead path]).
Proof.
  intros H. apply try_except_return.
  unfold load_tickers_body, bind, open_readlines. rewrite H. reflexivity.
Qed.

Lemma load_tickers_unreadable W path limit tr e :
  readlines W tr path = Raise e ->
  load_tickers W path limit tr
  = (Return default_tickers,
     tr ++ [OpenRead path; Print [PStr "load_tickers error:"; PExn e]]).
Proof.
  intros H. unfold load_tickers.
  rewrite (try_except_raise _ _ tr e (tr ++ [OpenRead path])).
  - handler_logs.
  - unfold load_tickers_body, bind, open_readlines. rewrite H. reflexivity.
Qed.

(** C4, as the code has it: a ticker file that cannot be read (it is
    missing, say) gives the three default symbols; a file that is there but
    empty gives the empty list. *)
Theorem load_tickers_fallback W path limit tr :
  (forall e, readlines W tr path = Raise e ->
             load_tickers W path limit tr
             = (Return default_tickers,
                tr ++ [OpenRead path; Print [PStr "load_tickers error:"; PExn e]]))
  /\ (readlines W tr path = Return [] ->
      load_tickers W path limit tr = (Return [], tr ++ [OpenRead path])).
Proof.
  split.
  - intros e H. apply load_tickers_unreadable. exact H.
  - intros H. rewrite (load_tickers_readable _ _ _ _ _ H). simpl.
    destruct limit as [n|]; simpl; [|reflexivity].
    destruct (n =? 0); [reflexivity|]. rewrite slice_to_nil. reflexivity.
Qed.

Lemma load_tickers_fallback_witness :
  load_tickers Sample.offline "tickers.txt" (Some 2) []
  = (Return ["MSFT"; "AAPL"; "NVDA"]%string,
     [] ++ [OpenRead "tickers.txt";
            Print [PStr "load_tickers error:"; PExn Sample.no_such_file]])
  /\ load_tickers (Sample.online [] []) "tickers.txt" (Some 2) []
     = (Return [], [] ++ [OpenRead "tickers.txt"]).
Proof.
  split.
  - apply (proj1 (load_tickers_fallback Sample.offline "tickers.txt" (Some 2) [])
             Sample.no_such_file).
    reflexivity.
  - apply (proj2 (load_tickers_fallback (Sample.online [] []) "tickers.txt" (Some 2) [])).
    reflexivity.
Defined.

(** C4 as stated fails on an empty file: the loader returns no symbol at
    all, not the default three. *)
Lemma load_tickers_empty_file_no_default :
  readlines (Sample.online [] []) [] "tickers.txt" = Return []
  /\ load_tickers (Sample.online [] []) "tickers.txt" None []
     = (Return [], [OpenRead "tickers.txt"])
  /\ fst (load_tickers (Sample.online [] []) "tickers.txt" None [])
     <> Return default_tickers.
Proof.
  repeat split. discriminate.
Qed.

(** C10: a limit of 0 does not truncate; the loader answers as it does
    without a limit, with every non-blank line stripped and upper-cased. *)
Theorem load_tickers_limit_zero W path tr :
  load_tickers W path (Some 0) tr = load_tickers W path None tr
  /\ (forall raw,
         readlines W tr path = Return raw ->
         load_tickers W path (Some 0) tr
         = (Return (map (fun l => Py.upper (Py.strip l))
                      (filter (fun l => Py.truthy (Py.strip l)) raw)),
            tr ++ [OpenRead path])).
Proof.
  split.
  - destruct (readlines W tr path) as [raw|e] eqn:H.
    + rewrite !(load_tickers_readable _ _ _ _ _ H). reflexivity.
    + rewrite !(load_tickers_unreadable _ _ _ _ _ H). reflexivity.
  - intros raw H. rewrite (load_tickers_readable _ _ _ _ _ H). reflexivity.
Qed.

Lemma load_tickers_limit_zero_witness :
  load_tickers (Sample.online [] Sample.ticker_lines) "tickers.txt" (Some 0) []
  = (Return (map (fun l => Py.upper (Py.strip l))
               (filter (fun l => Py.truthy (Py.strip l)) Sample.ticker_lines)),
     [] ++ [OpenRead "tickers.txt"]).
Proof.
  apply (proj2 (load_tickers_limit_zero
                  (Sample.online [] Sample.ticker_lines) "tickers.txt" [])).
  reflexivity.
Defined.

Example load_tickers_sample :
  fst (load_tickers (Sample.online [] Sample.ticker_lines) "tickers.txt" (Some 0) [])
  = Return ["MSFT"; "AAPL"; "NVDA"]%string
  /\ fst (load_tickers (Sample.online [] Sample.ticker_lines) "tickers.txt" (Some 2) [])
     = Return ["MSFT"; "AAPL"]%string
  /\ fst (load_tickers (Sample.online [] Sample.ticker_lines) "tickers.txt" (Some (-1)) [])
     = Return ["MSFT"; "AAPL"]%string.
Proof. repeat split. Qed.

(* ================================================================== *)
(** ** Properties of the price fetcher *)

Lemma getitem_nth {A} (l : list A) (i : nat) (d : A) :
  (i < List.length l)%nat -> getitem l (Z.of_nat i) = Return (nth i l d).
Proof.
  intros Hi. unfold getitem. cbv zeta.
  assert (Hpos : (Z.of_nat i <? 0) = false) by (apply Z.ltb_ge; lia).
  rewrite Hpos. cbv iota. rewrite Hpos, Nat2Z.id.
  destruct (nth_error l i) as [a|] eqn:Hnth.
  - rewrite (nth_error_nth _ _ d Hnth). reflexivity.
  - apply nth_error_None in Hnth. lia.
Qed.

Lemma getitem_from_end {A} (l : list A) (k : nat) (d : A) :
  (1 <= k <= List.length l)%nat ->
  getitem l (- Z.of_nat k) = Return (nth (List.length l - k) l d).
Proof.
  intros Hk. unfold getitem, Py.len. cbv zeta.
  assert (Hneg : (- Z.of_nat k <? 0) = true) by (apply Z.ltb_lt; lia).
  assert (Hpos : (Z.of_nat (List.length l) + - Z.of_nat k <? 0) = false)
    by (apply Z.ltb_ge; lia).
  rewrite Hneg. cbv iota. rewrite Hpos.
  replace (Z.to_nat (Z.of_nat (List.length l) + - Z.of_nat k))
    with (List.length l - k)%nat by lia.
  destruct (nth_error l (List.length l - k)) as [a|] eqn:Hnth.
  - rewrite (nth_error_nth _ _ d Hnth). reflexivity.
  - apply nth_error_None in Hnth. lia.
Qed.

(** The body of the price fetcher, case by case. *)
Lemma get_stock_price_body_cases W ticker tr :
  get_stock_price_body W ticker tr
  = (match history W tr ticker "2d" with
     | Raise e => Raise e
     | Return hist =>
         if Py.len hist <? 2 then Return None
         else
           match getitem hist (-1) with
           | Raise e => Raise e
           | Return today_close =>
               match getitem hist (-2) with
               | Raise e => Raise e
               | Return yesterday_close =>
                   if PrimFloat.eqb yesterday_close 0 then Raise ZeroDivisionError
                   else
                     Return
                       (Some
                          (PriceSnapshot.mk (Py.upper ticker) today_close yesterday_close
                             (PrimFloat.mul
                                (PrimFloat.div
                                   (PrimFloat.sub today_close yesterday_close)
                                   yesterday_close) 100)))
               end
           end
     end, tr ++ [History ticker "2d"]).
Proof.
  unfold get_stock_price_body, bind, yf_history, float_div, lift, ret.
  destruct (history W tr ticker "2d") as [hist|e]; [|reflexivity].
  destruct (Py.len hist <? 2); [reflexivity|].
  destruct (getitem hist (-1)) as [t|e]; [|reflexivity].
  destruct (getitem hist (-2)) as [y|e]; [|reflexivity].
  destruct (PrimFloat.eqb y 0); reflexivity.
Qed.

(** With two closes or more, the last of them not being preceded by a zero,
    the fetcher yields a snapshot of the last two closes. *)
Lemma get_stock_price_succeeds W ticker tr hist :
  history W tr ticker "2d" = Return hist ->
  (2 <= List.length hist)%nat ->
  PrimFloat.eqb (nth (List.length hist - 2) hist 0%float) 0 = false ->
  exists snap,
    get_stock_price W ticker tr = (Return (Some snap), tr ++ [History ticker "2d"])
    /\ PriceSnapshot.today_close snap = nth (List.length hist - 1) hist 0%float
    /\ PriceSnapshot.yesterday_close snap = nth (List.length hist - 2) hist 0%float.
Proof.
  intros Hhist Hlen Hnz. unfold get_stock_price.
  eexists. split.
  - apply try_except_return. rewrite get_stock_price_body_cases, Hhist.
    destruct (Z.ltb_spec (Py.len hist) 2) as [Hlt|_]; [unfold Py.len in Hlt; lia|].
    pose proof (getitem_from_end hist 1 0%float ltac:(lia)) as H1.
    pose proof (getitem_from_end hist 2 0%float ltac:(lia)) as H2.
    change (- Z.of_nat 1) with (-1) in H1. change (- Z.of_nat 2) with (-2) in H2.
    rewrite H1, H2, Hnz. reflexivity.
  - split; reflexivity.
Qed.

(** C2: a snapshot returned by the price fetcher carries the last two closes
    of the history and their relative change in per cent, computed in
    double-precision arithmetic; a history of fewer than two closes gives no
    snapshot. *)
Theorem get_stock_price_change_pct W ticker tr :
  (forall snap tr',
      get_stock_price W ticker tr = (Return (Some snap), tr') ->
      PriceSnapshot.change_pct snap
      = PrimFloat.mul
          (PrimFloat.div
             (PrimFloat.sub (PriceSnapshot.today_close snap)
                (PriceSnapshot.yesterday_close snap))
             (PriceSnapshot.yesterday_close snap)) 100
      /\ exists hist,
          history W tr ticker "2d" = Return hist
          /\ getitem hist (-1) = Return (PriceSnapshot.today_close snap)
          /\ getitem hist (-2) = Return (PriceSnapshot.yesterday_close snap))
  /\ (forall hist,
         history W tr ticker "2d" = Return hist ->
         (List.length hist < 2)%nat ->
         get_stock_price W ticker tr = (Return None, tr ++ [History ticker "2d"])).
Proof.
  split.
  - intros snap tr'. unfold get_stock_price, try_except.
    rewrite get_stock_price_body_cases.
    destruct (history W tr ticker "2d") as [hist|e]; [|discriminate].
    destruct (Py.len hist <? 2); [discriminate|].
    destruct (getitem hist (-1)) as [t|e] eqn:Ht; [|discriminate].
    destruct (getitem hist (-2)) as [y|e] eqn:Hy; [|discriminate].
    destruct (PrimFloat.eqb y 0); [discriminate|].
    intros H. injection H as Hsnap _. subst snap. simpl.
    split; [reflexivity|]. exists hist. auto.
  - intros hist Hhist Hlen. unfold get_stock_price.
    apply try_except_return. rewrite get_stock_price_body_cases, Hhist.
    destruct (Z.ltb_spec (Py.len hist) 2) as [_|Hge]; [reflexivity|].
    unfold Py.len in Hge. lia.
Qed.

Example get_stock_price_sample :
  get_stock_price (Sample.online [101.5; 100; 92.5]%float []) "msft" []
  = (Return (Some Sample.msft_drop), [History "msft" "2d"]).
Proof. reflexivity. Qed.

Lemma get_stock_price_change_pct_witness :
  (PriceSnapshot.change_pct Sample.msft_drop
   = PrimFloat.mul
       (PrimFloat.div
          (PrimFloat.sub (PriceSnapshot.today_close Sample.msft_drop)
             (PriceSnapshot.yesterday_close Sample.msft_drop))
          (PriceSnapshot.yesterday_close Sample.msft_drop)) 100
   /\ exists hist,
       history (Sample.online [101.5; 100; 92.5]%float []) [] "msft" "2d" = Return hist
       /\ getitem hist (-1) = Return (PriceSnapshot.today_close Sample.msft_drop)
       /\ getitem hist (-2) = Return (PriceSnapshot.yesterday_close Sample.msft_drop))
  /\ get_stock_price (Sample.online [100]%float []) "msft" []
     = (Return None, [] ++ [History "msft" "2d"]).
Proof.
  split.
  - apply (proj1 (get_stock_price_change_pct
                    (Sample.online [101.5; 100; 92.5]%float []) "msft" [])
             Sample.msft_drop [History "msft" "2d"]).
    reflexivity.
  - apply (proj2 (get_stock_price_change_pct (Sample.online [100]%float []) "msft" [])
             [100]%float).
    + reflexivity.
    + simpl. lia.
Defined.

Example get_stock_price_zero_close :
  get_stock_price (Sample.online [0; 5]%float []) "msft" []
  = (Return None,
     [History "msft" "2d"; Print [PStr "get_stock_price error:"; PExn ZeroDivisionError]]).
Proof. reflexivity. Qed.

(* ================================================================== *)
(** ** Properties of the two table scrapers *)

Lemma get_attr_raise a key e : Bs4.get_attr a key = Raise e -> e = KeyError key.
Proof.
  unfold Bs4.get_attr. destruct a as [s|name attrs contents].
  - intros H. injection H as <-. reflexivity.
  - destruct (Bs4.lookup key attrs); [discriminate|].
    intros H. injection H as <-. reflexivity.
Qed.

Lemma filing_row_table_row : filing_row = table_row FilingRecord.mk.
Proof. reflexivity. Qed.

Lemma trade_row_table_row : trade_row = table_row TradeRecord.mk.
Proof. reflexivity. Qed.

(** One row: skipped when short, a record when its link can be read, and
    [KeyError] when its anchor has no [href]. *)
Lemma table_row_cases {R} (mk : string -> string -> string -> R) row acc tr :
  table_row mk row acc tr
  = (if 5 <=? Py.len (Bs4.find_all "td" row)
     then if link_ok row then Return (acc ++ [row_record mk row])
          else Raise (KeyError "href")
     else Return acc, tr).
Proof.
  unfold table_row.
  destruct (Z.ltb_spec (Py.len (Bs4.find_all "td" row)) 5) as [Hshort|Hfull].
  - apply Z.leb_gt in Hshort. rewrite Hshort. reflexivity.
  - pose proof Hfull as Hle. apply Z.leb_le in Hle. rewrite Hle.
    unfold Py.len in Hfull.
    pose proof (getitem_nth (Bs4.find_all "td" row) 3 (Bs4.NavigableString "")
                  ltac:(lia)) as H3.
    pose proof (getitem_nth (Bs4.find_all "td" row) 1 (Bs4.NavigableString "")
                  ltac:(lia)) as H1.
    change (Z.of_nat 3) with 3 in H3. change (Z.of_nat 1) with 1 in H1.
    unfold bind, lift. rewrite H3, H1.
    unfold link_of, link_ok, row_record, row_link, cell, bind, lift, ret.
    destruct (Bs4.find "a" (nth 1 (Bs4.find_all "td" row) (Bs4.NavigableString "")))
      as [a|]; [|reflexivity].
    destruct (Bs4.get_attr a "href") as [href|e] eqn:Hattr; [reflexivity|].
    apply get_attr_raise in Hattr. subst e. reflexivity.
Qed.

(** The loop of either scraper leaves the trace alone; it collects the
    records of the full rows in order, unless one of them has an anchor
    without [href]. *)
Lemma for_each_table_rows {R} (mk : string -> string -> string -> R) rows :
  forall acc tr,
    for_each rows (table_row mk) acc tr
    = (let kept := filter (fun row => 5 <=? Py.len (Bs4.find_all "td" row)) rows in
       if forallb link_ok kept
       then Return (acc ++ map (row_record mk) kept)
       else Raise (KeyError "href"), tr).
Proof.
  induction rows as [|row rows IH]; intros acc tr; cbv zeta in *.
  - simpl. unfold ret. rewrite app_nil_r. reflexivity.
  - simpl for_each. unfold bind. rewrite table_row_cases. simpl filter.
    destruct (5 <=? Py.len (Bs4.find_all "td" row)).
    + simpl forallb. destruct (link_ok row); simpl.
      * rewrite IH. rewrite <- app_assoc. reflexivity.
      * reflexivity.
    + apply IH.
Qed.

Lemma get_recent_13f_filings_body_cases W L count tr r_text :
  requests_get W tr (url_13f count) = Return r_text ->
  get_recent_13f_filings_body W L count tr
  = (if forallb link_ok (data_rows (BeautifulSoup L r_text))
     then Return (map (row_record FilingRecord.mk) (data_rows (BeautifulSoup L r_text)))
     else Raise (KeyError "href"),
     tr ++ [HttpGet (url_13f count) user_agent 15]).
Proof.
  intros Hget. unfold get_recent_13f_filings_body, bind, http_get_text.
  fold (url_13f count). rewrite Hget, filing_row_table_row.
  rewrite for_each_table_rows. reflexivity.
Qed.

Lemma get_recent_politician_trades_body_cases W L count tr r_text :
  requests_get W tr (url_form4 count) = Return r_text ->
  get_recent_politician_trades_body W L count tr
  = (if forallb link_ok (data_rows (BeautifulSoup L r_text))
     then Return (map (row_record TradeRecord.mk) (data_rows (BeautifulSoup L r_text)))
     else Raise (KeyError "href"),
     tr ++ [HttpGet (url_form4 count) user_agent 15]).
Proof.
  intros Hget. unfold get_recent_politician_trades_body, bind, http_get_text.
  fold (url_form4 count). rewrite Hget, trade_row_table_row.
  rewrite for_each_table_rows. reflexivity.
Qed.

(** C3, as the code has it: from the table it is given, either scraper drops
    the first row and every row with fewer than 5 columns, and turns each
    remaining row into a record of the stripped text of column 3, the
    stripped text of column 1 and the site origin followed by the [href] of
    the first anchor of column 1 (the empty string without an anchor),
    provided every such anchor has an [href]; if one has none the scraper
    logs the [KeyError] and returns the empty sequence. It never raises. *)
Theorem scrapers_rows W L count tr r_text :
  (requests_get W tr (url_13f count) = Return r_text ->
   (forallb link_ok (data_rows (BeautifulSoup L r_text)) = true ->
    get_recent_13f_filings W L count tr
    = (Return (map (row_record FilingRecord.mk) (data_rows (BeautifulSoup L r_text))),
       tr ++ [HttpGet (url_13f count) user_agent 15]))
   /\ (forallb link_ok (data_rows (BeautifulSoup L r_text)) = false ->
       get_recent_13f_filings W L count tr
       = (Return [],
          tr ++ [HttpGet (url_13f count) user_agent 15;
                 Print [PStr "get_recent_13f_filings error:"; PExn (KeyError "href")]])))
  /\ (requests_get W tr (url_form4 count) = Return r_text ->
      (forallb link_ok (data_rows (BeautifulSoup L r_text)) = true ->
       get_recent_politician_trades W L count tr
       = (Return (map (row_record TradeRecord.mk) (data_rows (BeautifulSoup L r_text))),
          tr ++ [HttpGet (url_form4 count) user_agent 15]))
      /\ (forallb link_ok (data_rows (BeautifulSoup L r_text)) = false ->
          get_recent_politician_trades W L count tr
          = (Return [],
             tr ++ [HttpGet (url_form4 count) user_agent 15;
                    Print [PStr "get_recent_politician_trades error:";
                           PExn (KeyError "href")]]))).
Proof.
  split; intros Hget; split; intros Hlinks.
  - unfold get_recent_13f_filings. apply try_except_return.
    rewrite (get_recent_13f_filings_body_cases _ _ _ _ _ Hget), Hlinks. reflexivity.
  - unfold get_recent_13f_filings.
    rewrite (try_except_raise _ _ tr (KeyError "href")
               (tr ++ [HttpGet (url_13f count) user_agent 15])).
    + handler_logs.
    + rewrite (get_recent_13f_filings_body_cases _ _ _ _ _ Hget), Hlinks. reflexivity.
  - unfold get_recent_politician_trades. apply try_except_return.
    rewrite (get_recent_politician_trades_body_cases _ _ _ _ _ Hget), Hlinks.
    reflexivity.
  - unfold get_recent_politician_trades.
    rewrite (try_except_raise _ _ tr (KeyError "href")
               (tr ++ [HttpGet (url_form4 count) user_agent 15])).
    + handler_logs.
    + rewrite (get_recent_politician_trades_body_cases _ _ _ _ _ Hget), Hlinks.
      reflexivity.
Qed.

Example good_page_rows :
  data_rows Sample.good_page = [Sample.acme_row; Sample.plain_row]
  /\ map (row_record FilingRecord.mk) (data_rows Sample.good_page)
     = [FilingRecord.mk "2024-05-01" "Acme Corp" "https://www.sec.gov/Archives/acme.htm";
        FilingRecord.mk "2024-05-02" "Beta LLC" ""].
Proof. split; reflexivity. Qed.

Lemma scrapers_rows_witness :
  (get_recent_13f_filings (Sample.online [] []) (Sample.library Sample.good_page) 10 []
   = (Return (map (row_record FilingRecord.mk)
                (data_rows
                   (BeautifulSoup (Sample.library Sample.good_page) "<html>...</html>"))),
      [] ++ [HttpGet (url_13f 10) user_agent 15])
   /\ get_recent_politician_trades (Sample.online [] [])
        (Sample.library Sample.good_page) 10 []
      = (Return (map (row_record TradeRecord.mk)
                   (data_rows
                      (BeautifulSoup (Sample.library Sample.good_page) "<html>...</html>"))),
         [] ++ [HttpGet (url_form4 10) user_agent 15]))
  /\ (get_recent_13f_filings (Sample.online [] []) (Sample.library Sample.bad_page) 10 []
      = (Return [],
         [] ++ [HttpGet (url_13f 10) user_agent 15;
                Print [PStr "get_recent_13f_filings error:"; PExn (KeyError "href")]])
      /\ get_recent_politician_trades (Sample.online [] [])
           (Sample.library Sample.bad_page) 10 []
         = (Return [],
            [] ++ [HttpGet (url_form4 10) user_agent 15;
                   Print [PStr "get_recent_politician_trades error:";
                          PExn (KeyError "href")]])).
Proof.
  pose proof (scrapers_rows (Sample.online [] []) (Sample.library Sample.good_page)
                10 [] "<html>...</html>") as (Hf & Ht).
  pose proof (scrapers_rows (Sample.online [] []) (Sample.library Sample.bad_page)
                10 [] "<html>...</html>") as (Hf' & Ht').
  split; split.
  - apply (proj1 (Hf eq_refl)). reflexivity.
  - apply (proj1 (Ht eq_refl)). reflexivity.
  - apply (proj2 (Hf' eq_refl)). reflexivity.
  - apply (proj2 (Ht' eq_refl)). reflexivity.
Defined.

(** C3 as stated fails when a name cell holds an anchor without [href]:
    both rows below the header have 5 columns, yet no record is emitted,
    not even for the well-formed row. *)
Lemma scraper_drops_all_rows_on_bare_anchor :
  data_rows Sample.bad_page = [Sample.acme_row; Sample.anchor_row]
  /\ Bs4.find "a" (cell Sample.anchor_row 1)
     = Some (Bs4.Tag "a" [("name", "top")] [Bs4.NavigableString "Gamma Inc"])%string
  /\ get_recent_13f_filings (Sample.online [] []) (Sample.library Sample.bad_page) 10 []
     = (Return [],
        [HttpGet (url_13f 10) user_agent 15;
         Print [PStr "get_recent_13f_filings error:"; PExn (KeyError "href")]])
  /\ get_recent_politician_trades (Sample.online [] []) (Sample.library Sample.bad_page) 10 []
     = (Return [],
        [HttpGet (url_form4 10) user_agent 15;
         Print [PStr "get_recent_politician_trades error:"; PExn (KeyError "href")]]).
Proof. repeat split. Qed.

(* ================================================================== *)
(** ** Fail-soft policy *)

Lemma get_stock_price_fails_soft W ticker :
  fails_soft (get_stock_price W ticker) (get_stock_price_body W ticker)
    "get_stock_price error:" None.
Proof. apply guard_fails_soft. Qed.

Lemma get_recent_13f_filings_fails_soft W L count :
  fails_soft (get_recent_13f_filings W L count) (get_recent_13f_filings_body W L count)
    "get_recent_13f_filings error:" [].
Proof. apply guard_fails_soft. Qed.

Lemma get_google_news_rss_fails_soft W query max_items :
  fails_soft (get_google_news_rss W query max_items)
    (get_google_news_rss_body W query max_items) "get_google_news_rss error:" [].
Proof. apply guard_fails_soft. Qed.

Lemma get_recent_politician_trades_fails_soft W L count :
  fails_soft (get_recent_politician_trades W L count)
    (get_recent_politician_trades_body W L count)
    "get_recent_politician_trades error:" [].
Proof. apply guard_fails_soft. Qed.

Lemma send_telegram_message_returns W message tr :
  exists tr', send_telegram_message W message tr = (Return tt, tr').
Proof.
  unfold send_telegram_message. destruct (bot W) as [b|].
  - destruct (send_loop_spec W b message (CHAT_IDS W) tr) as (tr' & Hrun & _).
    exists (tr ++ tr'). exact Hrun.
  - eexists. reflexivity.
Qed.

(** The run in terms of what the four fetchers returned. *)
Lemma run_and_notify_returns W L ticker tr :
  exists stock_data (filings : list FilingRecord.t) (news : list NewsItem.t)
         (politician_trades : list TradeRecord.t) tr',
    run_and_notify W L ticker tr
    = (Return
         (RunResult.mk ticker
            (score_opportunity stock_data (Py.len filings) (Py.len news)
               (Py.len politician_trades))), tr').
Proof.
  unfold run_and_notify, bind.
  destruct (proj1 (get_stock_price_fails_soft W ticker tr)) as (sd & tr1 & H1).
  rewrite H1.
  destruct (proj1 (get_recent_13f_filings_fails_soft W L 10 tr1)) as (fs & tr2 & H2).
  rewrite H2.
  destruct (proj1 (get_google_news_rss_fails_soft W ticker 5 tr2)) as (ns & tr3 & H3).
  rewrite H3.
  destruct (proj1 (get_recent_politician_trades_fails_soft W L 10 tr3)) as (ts & tr4 & H4).
  rewrite H4.
  match goal with
  | |- context [send_telegram_message W ?m tr4] =>
      destruct (send_telegram_message_returns W m tr4) as (tr5 & H5); rewrite H5
  end.
  exists sd, fs, ns, ts, tr5. reflexivity.
Qed.

(** C7: each of the four fetchers returns normally whatever happens, and
    when its body raises it logs the exception and returns its default
    ([None] for the price, the empty sequence for the three listers); hence
    a run always completes with a record of the ticker and a score. *)
Theorem external_calls_fail_soft W L :
  (forall ticker,
      fails_soft (get_stock_price W ticker) (get_stock_price_body W ticker)
        "get_stock_price error:" None)
  /\ (forall count,
         fails_soft (get_recent_13f_filings W L count)
           (get_recent_13f_filings_body W L count) "get_recent_13f_filings error:" [])
  /\ (forall query max_items,
         fails_soft (get_google_news_rss W query max_items)
           (get_google_news_rss_body W query max_items) "get_google_news_rss error:" [])
  /\ (forall count,
         fails_soft (get_recent_politician_trades W L count)
           (get_recent_politician_trades_body W L count)
           "get_recent_politician_trades error:" [])
  /\ (forall ticker tr,
         exists score tr',
           run_and_notify W L ticker tr = (Return (RunResult.mk ticker score), tr')
           /\ 0 <= score).
Proof.
  split; [|split; [|split; [|split]]].
  - intros ticker. apply get_stock_price_fails_soft.
  - intros count. apply get_recent_13f_filings_fails_soft.
  - intros query max_items. apply get_google_news_rss_fails_soft.
  - intros count. apply get_recent_politician_trades_fails_soft.
  - intros ticker tr.
    destruct (run_and_notify_returns W L ticker tr) as (sd & fs & ns & ts & tr' & Hrun).
    eexists. exists tr'. split; [exact Hrun|]. apply score_opportunity_nonneg.
Qed.

Example bodies_raise :
  fst (get_stock_price_body Sample.offline "MSFT" []) = Raise Sample.unreachable
  /\ fst (get_stock_price_body (Sample.online [0; 5]%float []) "MSFT" [])
     = Raise ZeroDivisionError
  /\ fst (get_recent_13f_filings_body (Sample.online [] [])
            (Sample.library Sample.bad_page) 10 []) = Raise (KeyError "href")
  /\ fst (get_google_news_rss_body Sample.untitled_feed "MSFT" 5 [])
     = Raise (AttributeError "title").
Proof. repeat split. Qed.

Lemma external_calls_fail_soft_witness :
  get_stock_price Sample.offline "MSFT" []
  = (Return None,
     [History "MSFT" "2d"]
       ++ [Print [PStr "get_stock_price error:"; PExn Sample.unreachable]])
  /\ get_recent_13f_filings Sample.offline (Sample.library Sample.good_page) 10 []
     = (Return [],
        [HttpGet (url_13f 10) user_agent 15]
          ++ [Print [PStr "get_recent_13f_filings error:"; PExn Sample.unreachable]])
  /\ get_google_news_rss Sample.untitled_feed "MSFT" 5 []
     = (Return [],
        [FeedParse "https://news.google.com/rss/search?q=MSFT&hl=en-US&gl=US&ceid=US:en"]
          ++ [Print [PStr "get_google_news_rss error:"; PExn (AttributeError "title")]])
  /\ get_recent_politician_trades Sample.offline (Sample.library Sample.good_page) 10 []
     = (Return [],
        [HttpGet (url_form4 10) user_agent 15]
          ++ [Print [PStr "get_recent_politician_trades error:";
                     PExn Sample.unreachable]])
  /\ exists score tr',
      run_and_notify Sample.offline (Sample.library Sample.good_page) "MSFT" []
      = (Return (RunResult.mk "MSFT" score), tr')
      /\ 0 <= score.
Proof.
  pose proof (external_calls_fail_soft Sample.offline (Sample.library Sample.good_page))
    as (Hprice & Hfilings & _ & Htrades & Hrun).
  pose proof (external_calls_fail_soft Sample.untitled_feed
                (Sample.library Sample.good_page))
    as (_ & _ & Hnews & _).
  split; [|split; [|split; [|split]]].
  - apply (proj2 (Hprice "MSFT"%string [])). reflexivity.
  - apply (proj2 (Hfilings 10 [])). reflexivity.
  - apply (proj2 (Hnews "MSFT"%string 5 [])). reflexivity.
  - apply (proj2 (Htrades 10 [])). reflexivity.
  - apply Hrun.
Defined.

Example run_and_notify_online :
  fst (run_and_notify (Sample.online [100; 92.5]%float [])
         (Sample.library Sample.good_page) "MSFT" [])
  = Return (RunResult.mk "MSFT" 13).
Proof. reflexivity. Qed.

Example run_and_notify_offline :
  fst (run_and_notify Sample.offline (Sample.library Sample.good_page) "MSFT" [])
  = Return (RunResult.mk "MSFT" 0)
  /\ sends (snd (run_and_notify Sample.offline (Sample.library Sample.good_page) "MSFT" []))
     = [].
Proof. split; reflexivity. Qed.

(* ================================================================== *)
(** ** Text normalisation *)

Lemma isspace_upper_char c : Py.isspace (Py.upper_char c) = Py.isspace c.
Proof. destruct c as [[] [] [] [] [] [] [] []]; reflexivity. Qed.

Lemma upper_char_idem c : Py.upper_char (Py.upper_char c) = Py.upper_char c.
Proof. destruct c as [[] [] [] [] [] [] [] []]; reflexivity. Qed.

Lemma upper_idem s : Py.upper (Py.upper s) = Py.upper s.
Proof.
  induction s as [|c s IH]; [reflexivity|].
  simpl. rewrite upper_char_idem, IH. reflexivity.
Qed.

Lemma truthy_upper s : Py.truthy (Py.upper s) = Py.truthy s.
Proof. destruct s; reflexivity. Qed.

Lemma truthy_nonempty s : Py.truthy s = true -> s <> ""%string.
Proof. destruct s; [discriminate|]. intros _ H. discriminate. Qed.

Lemma lstrip_upper s : Py.lstrip (Py.upper s) = Py.upper (Py.lstrip s).
Proof.
  induction s as [|c s IH]; [reflexivity|].
  simpl. rewrite isspace_upper_char. destruct (Py.isspace c); [exact IH|reflexivity].
Qed.

Lemma rstrip_upper s : Py.rstrip (Py.upper s) = Py.upper (Py.rstrip s).
Proof.
  induction s as [|c s IH]; [reflexivity|].
  simpl. rewrite IH, isspace_upper_char.
  destruct (Py.rstrip s) as [|d r]; simpl.
  - destruct (Py.isspace c); reflexivity.
  - reflexivity.
Qed.

Lemma strip_upper s : Py.strip (Py.upper s) = Py.upper (Py.strip s).
Proof. unfold Py.strip. rewrite lstrip_upper, rstrip_upper. reflexivity. Qed.

Lemma no_lead_lstrip s : no_lead (Py.lstrip s).
Proof.
  induction s as [|c s IH]; [exact I|].
  simpl. destruct (Py.isspace c) eqn:Hc; [exact IH|exact Hc].
Qed.

Lemma no_lead_rstrip s : no_lead s -> no_lead (Py.rstrip s).
Proof.
  destruct s as [|c s]; [trivial|].
  simpl. intros Hc. rewrite Hc. destruct (Py.rstrip s); exact Hc.
Qed.

Lemma lstrip_no_lead s : no_lead s -> Py.lstrip s = s.
Proof.
  destruct s as [|c s]; [reflexivity|]. simpl. intros Hc. rewrite Hc. reflexivity.
Qed.

Lemma rstrip_idem s : Py.rstrip (Py.rstrip s) = Py.rstrip s.
Proof.
  induction s as [|c s IH]; [reflexivity|].
  simpl. destruct (Py.rstrip s) as [|d r] eqn:Hr.
  - destruct (Py.isspace c) eqn:Hc; [reflexivity|]. simpl. rewrite Hc. reflexivity.
  - change (Py.rstrip (String c (String d r)))
      with (match Py.rstrip (String d r) with
            | EmptyString => if Py.isspace c then EmptyString else String c EmptyString
            | String _ _ as r' => String c r'
            end).
    rewrite IH. reflexivity.
Qed.

Lemma strip_idem s : Py.strip (Py.strip s) = Py.strip s.
Proof.
  unfold Py.strip.
  rewrite (lstrip_no_lead (Py.rstrip (Py.lstrip s))).
  - apply rstrip_idem.
  - apply no_lead_rstrip, no_lead_lstrip.
Qed.

(* ================================================================== *)
(** ** Further properties of the scorer *)

(** X1: whatever integers are passed, a count below zero weighs like zero:
    the score is three for a large price move, plus twice the filings, the
    news and twice the trades, each clamped at zero from below. *)
Theorem score_opportunity_clamps stock_data f n t :
  score_opportunity stock_data f n t
  = 3 * (if big_move stock_data then 1 else 0)
    + 2 * Z.max 0 f + Z.max 0 n + 2 * Z.max 0 t.
Proof.
  rewrite score_opportunity_terms. unfold term.
  destruct (Z.gtb_spec f 0), (Z.gtb_spec n 0), (Z.gtb_spec t 0),
    (big_move stock_data); lia.
Qed.

(** X2: the score is zero exactly when there is no large price move and
    none of the three counts is positive. *)
Theorem score_opportunity_zero_iff stock_data f n t :
  score_opportunity stock_data f n t = 0
  <-> big_move stock_data = false /\ f <= 0 /\ n <= 0 /\ t <= 0.
Proof.
  rewrite score_opportunity_terms. unfold term.
  destruct (Z.gtb_spec f 0), (Z.gtb_spec n 0), (Z.gtb_spec t 0),
    (big_move stock_data); split; try lia;
    intros (Hb & Hf & Hn & Ht); try discriminate; lia.
Qed.

(* ================================================================== *)
(** ** The recipient list *)

(** X3: every recipient parsed from the comma-separated setting is
    non-empty and carries no white space at either end; blank segments are
    dropped. *)
Theorem chat_ids_clean W cid :
  In cid (CHAT_IDS W) -> cid <> ""%string /\ Py.strip cid = cid.
Proof.
  unfold CHAT_IDS. intros Hin.
  apply in_map_iff in Hin. destruct Hin as (seg & Hcid & Hseg).
  apply filter_In in Hseg. destruct Hseg as (_ & Htruthy).
  subst cid. split.
  - apply truthy_nonempty. exact Htruthy.
  - apply strip_idem.
Qed.

Lemma chat_ids_clean_witness :
  "222"%string <> ""%string /\ Py.strip "222" = "222"%string.
Proof.
  apply (chat_ids_clean (Sample.online [] []) "222").
  simpl. right. left. reflexivity.
Defined.

(* ================================================================== *)
(** ** Further properties of the price fetcher *)

Lemma getitem_last_two {A} (pre : list A) (y t : A) :
  getitem (pre ++ [y; t]) (-1) = Return t
  /\ getitem (pre ++ [y; t]) (-2) = Return y
  /\ (Py.len (pre ++ [y; t]) <? 2) = false.
Proof.
  assert (Hlen : List.length (pre ++ [y; t]) = (List.length pre + 2)%nat)
    by (rewrite length_app; reflexivity).
  pose proof (getitem_from_end (pre ++ [y; t]) 1 t ltac:(lia)) as H1.
  pose proof (getitem_from_end (pre ++ [y; t]) 2 t ltac:(lia)) as H2.
  change (- Z.of_nat 1) with (-1) in H1. change (- Z.of_nat 2) with (-2) in H2.
  rewrite Hlen in H1, H2.
  rewrite app_nth2 in H1, H2 by lia.
  replace (List.length pre + 2 - 1 - List.length pre)%nat with 1%nat in H1 by lia.
  replace (List.length pre + 2 - 2 - List.length pre)%nat with 0%nat in H2 by lia.
  repeat split; [exact H1|exact H2|].
  apply Z.ltb_ge. unfold Py.len. lia.
Qed.

(** X4: when the close before the last is zero the division raises, so the
    fetcher yields no snapshot and logs the [ZeroDivisionError], whatever
    the last close is. *)
Theorem get_stock_price_zero_previous_close W ticker tr pre y t :
  history W tr ticker "2d" = Return (pre ++ [y; t]) ->
  PrimFloat.eqb y 0 = true ->
  get_stock_price W ticker tr
  = (Return None,
     tr ++ [History ticker "2d";
            Print [PStr "get_stock_price error:"; PExn ZeroDivisionError]]).
Proof.
  intros Hhist Hzero.
  destruct (getitem_last_two pre y t) as (H1 & H2 & Hlen).
  unfold get_stock_price.
  rewrite (try_except_raise _ _ tr ZeroDivisionError (tr ++ [History ticker "2d"])).
  - handler_logs.
  - rewrite get_stock_price_body_cases, Hhist, Hlen, H1, H2, Hzero. reflexivity.
Qed.

Lemma get_stock_price_zero_previous_close_witness :
  get_stock_price (Sample.online [101.5; 0; 5]%float []) "msft" []
  = (Return None,
     [] ++ [History "msft" "2d";
            Print [PStr "get_stock_price error:"; PExn ZeroDivisionError]]).
Proof.
  apply (get_stock_price_zero_previous_close
           (Sample.online [101.5; 0; 5]%float []) "msft" [] [101.5%float] 0%float 5%float);
    reflexivity.
Defined.

(** X5: only the last two closes of the history count. With a non-zero
    close before the last, the fetcher makes its one request, prints
    nothing and returns the upper-cased ticker, the two closes and their
    relative change in per cent. *)
Theorem get_stock_price_last_two_closes W ticker tr pre y t :
  history W tr ticker "2d" = Return (pre ++ [y; t]) ->
  PrimFloat.eqb y 0 = false ->
  get_stock_price W ticker tr
  = (Return
       (Some
          (PriceSnapshot.mk (Py.upper ticker) t y
             (PrimFloat.mul (PrimFloat.div (PrimFloat.sub t y) y) 100))),
     tr ++ [History ticker "2d"]).
Proof.
  intros Hhist Hnz.
  destruct (getitem_last_two pre y t) as (H1 & H2 & Hlen).
  unfold get_stock_price. apply try_except_return.
  rewrite get_stock_price_body_cases, Hhist, Hlen, H1, H2, Hnz. reflexivity.
Qed.

Lemma get_stock_price_last_two_closes_witness :
  get_stock_price (Sample.online [101.5; 100; 92.5]%float []) "msft" []
  = (Return
       (Some
          (PriceSnapshot.mk (Py.upper "msft") 92.5 100
             (PrimFloat.mul (PrimFloat.div (PrimFloat.sub 92.5 100) 100) 100))),
     [] ++ [History "msft" "2d"]).
Proof.
  apply (get_stock_price_last_two_closes
           (Sample.online [101.5; 100; 92.5]%float []) "msft" []
           [101.5%float] 100%float 92.5%float);
    reflexivity.
Defined.

(** X6: the length test protects the two index reads: the body of the price
    fetcher raises only what the market-data request raised, or
    [ZeroDivisionError]. *)
Theorem get_stock_price_body_raises_only W ticker tr e tr' :
  get_stock_price_body W ticker tr = (Raise e, tr') ->
  history W tr ticker "2d" = Raise e \/ e = ZeroDivisionError.
Proof.
  rewrite get_stock_price_body_cases.
  destruct (history W tr ticker "2d") as [hist|e0].
  - destruct (Z.ltb_spec (Py.len hist) 2) as [Hlt|Hge]; [discriminate|].
    unfold Py.len in Hge.
    pose proof (getitem_from_end hist 1 0%float ltac:(lia)) as H1.
    pose proof (getitem_from_end hist 2 0%float ltac:(lia)) as H2.
    change (- Z.of_nat 1) with (-1) in H1. change (- Z.of_nat 2) with (-2) in H2.
    rewrite H1, H2.
    destruct (PrimFloat.eqb (nth (List.length hist - 2) hist 0%float) 0);
      [|discriminate].
    intros H. injection H as He _. right. symmetry. exact He.
  - intros H. injection H as He _. left. rewrite He. reflexivity.
Qed.

Lemma get_stock_price_body_raises_only_witness :
  history (Sample.online [0; 5]%float []) [] "msft" "2d" = Raise ZeroDivisionError
  \/ ZeroDivisionError = ZeroDivisionError.
Proof.
  apply (get_stock_price_body_raises_only (Sample.online [0; 5]%float []) "msft" []
           ZeroDivisionError [History "msft" "2d"]).
  reflexivity.
Defined.

(* ================================================================== *)
(** ** Properties of the news lister *)

Lemma news_entry_cases entry acc tr :
  news_entry entry acc tr
  = (match missing_attr entry with
     | Some a => Raise (AttributeError a)
     | None => Return (acc ++ [news_item entry])
     end, tr).
Proof.
  unfold news_entry, missing_attr, news_item, bind, attr, lift, ret.
  destruct (FeedEntry.title entry), (FeedEntry.link entry); reflexivity.
Qed.

(** The loop over the entries leaves the trace alone and stops at the first
    entry that lacks a title or a link. *)
Lemma for_each_news_entries entries :
  forall acc tr,
    for_each entries news_entry acc tr
    = (match first_missing entries with
       | Some a => Raise (AttributeError a)
       | None => Return (acc ++ map news_item entries)
       end, tr).
Proof.
  induction entries as [|entry entries IH]; intros acc tr.
  - simpl. unfold ret. rewrite app_nil_r. reflexivity.
  - simpl for_each. unfold bind. rewrite news_entry_cases. simpl.
    destruct (missing_attr entry) as [a|]; [reflexivity|].
    rewrite IH. rewrite <- app_assoc. reflexivity.
Qed.

Lemma get_google_news_rss_body_cases W query max_items tr :
  get_google_news_rss_body W query max_items tr
  = (match feedparser_parse W tr (news_url query) with
     | Raise e => Raise e
     | Return entries =>
         match first_missing (Py.slice_to entries max_items) with
         | Some a => Raise (AttributeError a)
         | None => Return (map news_item (Py.slice_to entries max_items))
         end
     end, tr ++ [FeedParse (news_url query)]).
Proof.
  unfold get_google_news_rss_body, bind, feed_entries. fold (news_url query).
  destruct (feedparser_parse W tr (news_url query)) as [entries|e]; [|reflexivity].
  rewrite for_each_news_entries. reflexivity.
Qed.

(** X7: from the entries of the feed the news lister keeps the first
    [max_items], in feed order, each with its title and link and with the
    empty string for a missing publication date; if one of the kept entries
    has no title or no link, it logs the [AttributeError] of the first such
    attribute and returns nothing at all. *)
Theorem get_google_news_rss_items W query max_items tr entries :
  feedparser_parse W tr (news_url query) = Return entries ->
  (first_missing (Py.slice_to entries max_items) = None ->
   get_google_news_rss W query max_items tr
   = (Return (map news_item (Py.slice_to entries max_items)),
      tr ++ [FeedParse (news_url query)]))
  /\ (forall a,
         first_missing (Py.slice_to entries max_items) = Some a ->
         get_google_news_rss W query max_items tr
         = (Return [],
            tr ++ [FeedParse (news_url query);
                   Print [PStr "get_google_news_rss error:"; PExn (AttributeError a)]])).
Proof.
  intros Hfeed. split.
  - intros Hok. unfold get_google_news_rss. apply try_except_return.
    rewrite get_google_news_rss_body_cases, Hfeed, Hok. reflexivity.
  - intros a Hbad. unfold get_google_news_rss.
    rewrite (try_except_raise _ _ tr (AttributeError a)
               (tr ++ [FeedParse (news_url query)])).
    + handler_logs.
    + rewrite get_google_news_rss_body_cases, Hfeed, Hbad. reflexivity.
Qed.

Lemma get_google_news_rss_items_witness :
  get_google_news_rss (Sample.online [] []) "MSFT" 1 []
  = (Return (map news_item (Py.slice_to Sample.feed 1)),
     [] ++ [FeedParse (news_url "MSFT")])
  /\ get_google_news_rss Sample.untitled_feed "MSFT" 5 []
     = (Return [],
        [] ++ [FeedParse (news_url "MSFT");
               Print [PStr "get_google_news_rss error:"; PExn (AttributeError "title")]]).
Proof.
  split.
  - apply (proj1 (get_google_news_rss_items (Sample.online [] []) "MSFT" 1 []
                    Sample.feed eq_refl)).
    reflexivity.
  - apply (proj2 (get_google_news_rss_items Sample.untitled_feed "MSFT" 5 []
                    [FeedEntry.mk None (Some "https://news.example/3"%string) None]
                    eq_refl)).
    reflexivity.
Defined.

(** X8: with a non-negative [max_items] the news lister never returns more
    than [max_items] items, whatever the feed answers. *)
Theorem get_google_news_rss_at_most W query max_items tr items tr' :
  0 <= max_items ->
  get_google_news_rss W query max_items tr = (Return items, tr') ->
  Py.len items <= max_items.
Proof.
  intros Hmax. unfold get_google_news_rss, try_except.
  rewrite get_google_news_rss_body_cases.
  destruct (feedparser_parse W tr (news_url query)) as [entries|e].
  - destruct (first_missing (Py.slice_to entries max_items)) as [a|].
    + unfold bind, print, emit, ret. intros H. injection H as Hitems _.
      subst items. exact Hmax.
    + intros H. injection H as Hitems _. subst items.
      unfold Py.len, Py.slice_to. rewrite length_map.
      destruct (Z.ltb_spec max_items 0) as [Hneg|_]; [lia|].
      pose proof (firstn_le_length (Z.to_nat max_items) entries).
      rewrite length_firstn. lia.
  - unfold bind, print, emit, ret. intros H. injection H as Hitems _.
    subst items. exact Hmax.
Qed.

Lemma get_google_news_rss_at_most_witness :
  Py.len (map news_item (Py.slice_to Sample.feed 1)) <= 1.
Proof.
  apply (get_google_news_rss_at_most (Sample.online [] []) "MSFT" 1 []
           (map news_item (Py.slice_to Sample.feed 1))
           [FeedParse (news_url "MSFT")]).
  - lia.
  - reflexivity.
Defined.

(* ================================================================== *)
(** ** Further properties of the ticker loader *)

Lemma In_firstn {A} (n : nat) (l : list A) (x : A) : In x (firstn n l) -> In x l.
Proof.
  revert l. induction n as [|n IH]; intros [|a l]; simpl; try tauto.
  intros [H|H]; [left; exact H|right; apply IH; exact H].
Qed.

(** X9: with a positive limit and a readable file the loader returns the
    first [limit] symbols of what it returns without a limit, hence at most
    [limit] of them. *)
Theorem load_tickers_positive_limit W path n tr raw full tr' :
  0 < n ->
  readlines W tr path = Return raw ->
  load_tickers W path None tr = (Return full, tr') ->
  load_tickers W path (Some n) tr = (Return (firstn (Z.to_nat n) full), tr')
  /\ Py.len (firstn (Z.to_nat n) full) <= n.
Proof.
  intros Hn Hread.
  rewrite !(load_tickers_readable _ _ _ _ _ Hread). simpl truncate.
  intros H. injection H as Hfull Htr. subst full tr'.
  assert (Hnz : (n =? 0) = false) by (apply Z.eqb_neq; lia).
  assert (Hpos : (n <? 0) = false) by (apply Z.ltb_ge; lia).
  rewrite Hnz. unfold Py.slice_to. rewrite Hpos. split; [reflexivity|].
  unfold Py.len. rewrite length_firstn. lia.
Qed.

Lemma load_tickers_positive_limit_witness :
  load_tickers (Sample.online [] Sample.ticker_lines) "tickers.txt" (Some 2) []
  = (Return (firstn (Z.to_nat 2) ["MSFT"; "AAPL"; "NVDA"]%string),
     [OpenRead "tickers.txt"])
  /\ Py.len (firstn (Z.to_nat 2) ["MSFT"; "AAPL"; "NVDA"]%string) <= 2.
Proof.
  apply (load_tickers_positive_limit (Sample.online [] Sample.ticker_lines)
           "tickers.txt" 2 [] Sample.ticker_lines).
  - lia.
  - reflexivity.
  - reflexivity.
Defined.

(** X10: every symbol the loader returns, from the file or from the
    default list, is non-empty, has no white space at either end and is
    unchanged by upper-casing. *)
Theorem load_tickers_normalised W path limit tr symbols tr' :
  load_tickers W path limit tr = (Return symbols, tr') ->
  forall s, In s symbols ->
            s <> ""%string /\ Py.strip s = s /\ Py.upper s = s.
Proof.
  destruct (readlines W tr path) as [raw|e] eqn:Hread.
  - rewrite (load_tickers_readable _ _ _ _ _ Hread).
    intros H s Hin. injection H as Hsym _. subst symbols.
    assert (Hfull : In s (map (fun l => Py.upper (Py.strip l))
                            (filter (fun l => Py.truthy (Py.strip l)) raw))).
    { destruct limit as [n|]; simpl in Hin; [|exact Hin].
      destruct (n =? 0); [exact Hin|].
      unfold Py.slice_to in Hin.
      destruct (n <? 0); eapply In_firstn; exact Hin. }
    apply in_map_iff in Hfull. destruct Hfull as (l & Hs & Hl).
    apply filter_In in Hl. destruct Hl as (_ & Htruthy). subst s.
    repeat split.
    + apply truthy_nonempty. rewrite truthy_upper. exact Htruthy.
    + rewrite strip_upper, strip_idem. reflexivity.
    + apply upper_idem.
  - rewrite (load_tickers_unreadable _ _ _ _ _ Hread).
    intros H s Hin. injection H as Hsym _. subst symbols.
    simpl in Hin. destruct Hin as [<-|[<-|[<-|[]]]];
      (repeat split; [discriminate|reflexivity..]).
Qed.

Lemma load_tickers_normalised_witness :
  "AAPL"%string <> ""%string
  /\ Py.strip "AAPL" = "AAPL"%string /\ Py.upper "AAPL" = "AAPL"%string.
Proof.
  apply (load_tickers_normalised (Sample.online [] Sample.ticker_lines)
           "tickers.txt" (Some (-1)) [] ["MSFT"; "AAPL"]%string [OpenRead "tickers.txt"]).
  - reflexivity.
  - simpl. right. left. reflexivity.
Defined.

(* ================================================================== *)
(** ** Further properties of the two table scrapers *)

Lemma get_recent_13f_filings_body_down W L count tr e :
  requests_get W tr (url_13f count) = Raise e ->
  get_recent_13f_filings_body W L count tr
  = (Raise e, tr ++ [HttpGet (url_13f count) user_agent 15]).
Proof.
  intros Hget. unfold get_recent_13f_filings_body, bind, http_get_text.
  fold (url_13f count). rewrite Hget. reflexivity.
Qed.

Lemma get_recent_politician_trades_body_down W L count tr e :
  requests_get W tr (url_form4 count) = Raise e ->
  get_recent_politician_trades_body W L count tr
  = (Raise e, tr ++ [HttpGet (url_form4 count) user_agent 15]).
Proof.
  intros Hget. unfold get_recent_politician_trades_body, bind, http_get_text.
  fold (url_form4 count). rewrite Hget. reflexivity.
Qed.






(** X12: the two scrapers run the same extraction: given the same page they
    return records that agree field by field (date, name, link), and they
    fail together. *)
Theorem scrapers_agree W L count count' tr tr0 r_text :
  requests_get W tr (url_13f count) = Return r_text ->
  requests_get W tr0 (url_form4 count') = Return r_text ->
  exists fs ts tr' tr0',
    get_recent_13f_filings W L count tr = (Return fs, tr')
    /\ get_recent_politician_trades W L count' tr0 = (Return ts, tr0')
    /\ map (fun f => (FilingRecord.date f, FilingRecord.company f, FilingRecord.link f)) fs
       = map (fun t => (TradeRecord.date t, TradeRecord.filer t, TradeRecord.link t)) ts.
Proof.
  intros Hf Ht.
  unfold get_recent_13f_filings, get_recent_politician_trades, try_except.
  rewrite (get_recent_13f_filings_body_cases _ _ _ _ _ Hf).
  rewrite (get_recent_politician_trades_body_cases _ _ _ _ _ Ht).
  destruct (forallb link_ok (data_rows (BeautifulSoup L r_text))).
  - do 4 eexists. split; [reflexivity|]. split; [reflexivity|].
    rewrite !map_map. reflexivity.
  - unfold bind, print, emit, ret. do 4 eexists.
    split; [reflexivity|]. split; reflexivity.
Qed.

Lemma scrapers_agree_witness :
  exists fs ts tr' tr0',
    get_recent_13f_filings (Sample.online [] []) (Sample.library Sample.good_page) 10 []
    = (Return fs, tr')
    /\ get_recent_politician_trades (Sample.online [] [])
         (Sample.library Sample.good_page) 3 [OpenRead "tickers.txt"]
       = (Return ts, tr0')
    /\ map (fun f => (FilingRecord.date f, FilingRecord.company f, FilingRecord.link f)) fs
       = map (fun t => (TradeRecord.date t, TradeRecord.filer t, TradeRecord.link t)) ts.
Proof.
  apply (scrapers_agree (Sample.online [] []) (Sample.library Sample.good_page)
           10 3 [] [OpenRead "tickers.txt"] "<html>...</html>");
    reflexivity.
Defined.

Lemma data_rows_few soup :
  (List.length (Bs4.find_all "tr" soup) <= 1)%nat -> data_rows soup = [].
Proof.
  unfold data_rows. destruct (Bs4.find_all "tr" soup) as [|header [|row rows]];
    simpl; intros H; [reflexivity..|lia].
Qed.

(** X13: a page without rows, or with its header row only, gives the empty
    sequence from either scraper, and nothing is logged. *)
Theorem scrapers_empty_table W L count tr r_text :
  (List.length (Bs4.find_all "tr" (BeautifulSoup L r_text)) <= 1)%nat ->
  (requests_get W tr (url_13f count) = Return r_text ->
   get_recent_13f_filings W L count tr
   = (Return [], tr ++ [HttpGet (url_13f count) user_agent 15]))
  /\ (requests_get W tr (url_form4 count) = Return r_text ->
      get_recent_politician_trades W L count tr
      = (Return [], tr ++ [HttpGet (url_form4 count) user_agent 15])).
Proof.
  intros Hrows. apply data_rows_few in Hrows. split; intros Hget.
  - unfold get_recent_13f_filings. apply try_except_return.
    rewrite (get_recent_13f_filings_body_cases _ _ _ _ _ Hget), Hrows. reflexivity.
  - unfold get_recent_politician_trades. apply try_except_return.
    rewrite (get_recent_politician_trades_body_cases _ _ _ _ _ Hget), Hrows.
    reflexivity.
Qed.

Lemma scrapers_empty_table_witness :
  get_recent_13f_filings (Sample.online [] []) (Sample.library Sample.empty_page) 10 []
  = (Return [], [] ++ [HttpGet (url_13f 10) user_agent 15])
  /\ get_recent_politician_trades (Sample.online [] [])
       (Sample.library Sample.empty_page) 10 []
     = (Return [], [] ++ [HttpGet (url_form4 10) user_agent 15]).
Proof.
  pose proof (scrapers_empty_table (Sample.online [] [])
                (Sample.library Sample.empty_page) 10 [] "<html>...</html>") as H.
  destruct H as (Hf & Ht); [simpl; lia|].
  split; [apply Hf|apply Ht]; reflexivity.
Defined.

(* ================================================================== *)
(** ** Further properties of the notifier *)

Lemma requests_of_app tr1 tr2 :
  requests_of (tr1 ++ tr2) = requests_of tr1 ++ requests_of tr2.
Proof. apply filter_app. Qed.

(** The loop over the recipients makes no request. *)
Lemma send_loop_trace W b message cids :
  forall tr, exists tr',
    send_loop W b message cids tr = (Return tt, tr ++ tr')
    /\ requests_of tr' = []
    /\ sends tr' = map (fun cid => (cid, message)) cids.
Proof.
  induction cids as [|c cids IH]; intros tr.
  - exists []. repeat split. unfold send_loop. simpl. unfold ret.
    rewrite app_nil_r. reflexivity.
  - rewrite send_loop_cons.
    destruct (send_message W tr c message) as [e|].
    + destruct (IH (tr ++ [SendMessage c message;
                           Print [PStr "Failed to send to"; PStr c; PExn e]]))
        as (tr' & Hrun & Hreq & Hsends).
      exists (SendMessage c message
                :: Print [PStr "Failed to send to"; PStr c; PExn e] :: tr').
      rewrite Hrun, <- app_assoc. simpl. rewrite Hsends. auto.
    + destruct (IH (tr ++ [SendMessage c message])) as (tr' & Hrun & Hreq & Hsends).
      exists (SendMessage c message :: tr').
      rewrite Hrun, <- app_assoc. simpl. rewrite Hsends. auto.
Qed.

Lemma send_telegram_message_trace W message tr :
  exists tr',
    send_telegram_message W message tr = (Return tt, tr ++ tr')
    /\ requests_of tr' = []
    /\ sends tr'
       = match bot W with
         | Some _ => map (fun cid => (cid, message)) (CHAT_IDS W)
         | None => []
         end.
Proof.
  unfold send_telegram_message. destruct (bot W) as [b|].
  - apply send_loop_trace.
  - eexists. repeat split.
Qed.

Lemma send_loop_all_delivered W b message cids :
  (forall tr cid, send_message W tr cid message = None) ->
  forall tr,
    send_loop W b message cids tr
    = (Return tt, tr ++ map (fun cid => SendMessage cid message) cids).
Proof.
  intros Hok. induction cids as [|c cids IH]; intros tr.
  - unfold send_loop. simpl. unfold ret. rewrite app_nil_r. reflexivity.
  - rewrite send_loop_cons, Hok, IH, <- app_assoc. reflexivity.
Qed.

(** X17: when every send is delivered the notifier prints nothing: what it
    does is one send per recipient, in list order, and nothing else. *)
Theorem send_telegram_message_silent_on_success W b message tr :
  bot W = Some b ->
  (forall tr0 cid, send_message W tr0 cid message = None) ->
  send_telegram_message W message tr
  = (Return tt, tr ++ map (fun cid => SendMessage cid message) (CHAT_IDS W)).
Proof.
  intros Hbot Hok. unfold send_telegram_message. rewrite Hbot.
  apply send_loop_all_delivered. exact Hok.
Qed.

Lemma send_telegram_message_silent_on_success_witness :
  send_telegram_message Sample.reliable "hello" []
  = (Return tt,
     [] ++ map (fun cid => SendMessage cid "hello") (CHAT_IDS Sample.reliable)).
Proof.
  apply (send_telegram_message_silent_on_success Sample.reliable "t0k3n" "hello" []).
  - reflexivity.
  - intros tr0 cid. reflexivity.
Defined.

(* ================================================================== *)
(** ** Properties of a run *)

(** A guarded call whose body makes one request: the request, then at most
    the log line of the handler. *)
Lemma guard_trace {A} (body : M A) (label : string) (default : A) tr o req :
  body tr = (o, tr ++ [req]) ->
  exists v logs,
    try_except body (fun e => bind (print [PStr label; PExn e]) (fun _ => ret default)) tr
    = (Return v, tr ++ req :: logs)
    /\ requests_of logs = [] /\ sends logs = [].
Proof.
  intros Hbody. unfold try_except. rewrite Hbody. destruct o as [a|e].
  - exists a, []. auto.
  - exists default, [Print [PStr label; PExn e]].
    unfold bind, print, emit, ret. rewrite <- app_assoc. auto.
Qed.

Lemma get_stock_price_trace W ticker tr :
  exists v logs,
    get_stock_price W ticker tr = (Return v, tr ++ History ticker "2d" :: logs)
    /\ requests_of logs = [] /\ sends logs = [].
Proof.
  eapply guard_trace. apply get_stock_price_body_cases.
Qed.

Lemma get_recent_13f_filings_trace W L count tr :
  exists v logs,
    get_recent_13f_filings W L count tr
    = (Return v, tr ++ HttpGet (url_13f count) user_agent 15 :: logs)
    /\ requests_of logs = [] /\ sends logs = [].
Proof.
  destruct (requests_get W tr (url_13f count)) as [r_text|e] eqn:Hget.
  - eapply guard_trace. apply (get_recent_13f_filings_body_cases _ _ _ _ _ Hget).
  - eapply guard_trace. apply (get_recent_13f_filings_body_down _ _ _ _ _ Hget).
Qed.

Lemma get_recent_politician_trades_trace W L count tr :
  exists v logs,
    get_recent_politician_trades W L count tr
    = (Return v, tr ++ HttpGet (url_form4 count) user_agent 15 :: logs)
    /\ requests_of logs = [] /\ sends logs = [].
Proof.
  destruct (requests_get W tr (url_form4 count)) as [r_text|e] eqn:Hget.
  - eapply guard_trace. apply (get_recent_politician_trades_body_cases _ _ _ _ _ Hget).
  - eapply guard_trace. apply (get_recent_politician_trades_body_down _ _ _ _ _ Hget).
Qed.

Lemma get_google_news_rss_trace W query max_items tr :
  exists v logs,
    get_google_news_rss W query max_items tr
    = (Return v, tr ++ FeedParse (news_url query) :: logs)
    /\ requests_of logs = [] /\ sends logs = [].
Proof.
  eapply guard_trace. apply get_google_news_rss_body_cases.
Qed.

(** A run, step by step: what was fetched, the score and message built from
    it, the requests made and the messages sent. *)
Lemma run_and_notify_trace W L ticker tr :
  exists stock_data (filings : list FilingRecord.t) (news : list NewsItem.t)
         (politician_trades : list TradeRecord.t) tr',
    run_and_notify W L ticker tr
    = (Return
         (RunResult.mk ticker
            (score_opportunity stock_data (Py.len filings) (Py.len news)
               (Py.len politician_trades))), tr ++ tr')
    /\ requests_of tr'
       = [History ticker "2d"; HttpGet (url_13f 10) user_agent 15;
          FeedParse (news_url ticker); HttpGet (url_form4 10) user_agent 15]
    /\ sends tr'
       = match bot W with
         | Some _ =>
             map (fun cid =>
                    (cid,
                     build_message W L ticker stock_data (Py.len filings) (Py.len news)
                       (Py.len politician_trades)
                       (score_opportunity stock_data (Py.len filings) (Py.len news)
                          (Py.len politician_trades))))
               (CHAT_IDS W)
         | None => []
         end.
Proof.
  unfold run_and_notify, bind.
  destruct (get_stock_price_trace W ticker tr) as (sd & l1 & H1 & R1 & S1).
  rewrite H1.
  destruct (get_recent_13f_filings_trace W L 10 (tr ++ History ticker "2d" :: l1))
    as (fs & l2 & H2 & R2 & S2).
  rewrite H2.
  destruct (get_google_news_rss_trace W ticker 5
              ((tr ++ History ticker "2d" :: l1)
                 ++ HttpGet (url_13f 10) user_agent 15 :: l2))
    as (ns & l3 & H3 & R3 & S3).
  rewrite H3.
  destruct (get_recent_politician_trades_trace W L 10
              (((tr ++ History ticker "2d" :: l1)
                  ++ HttpGet (url_13f 10) user_agent 15 :: l2)
                 ++ FeedParse (news_url ticker) :: l3))
    as (ts & l4 & H4 & R4 & S4).
  rewrite H4.
  match goal with
  | |- context [send_telegram_message W ?m ?t] =>
      destruct (send_telegram_message_trace W m t) as (l5 & H5 & R5 & S5); rewrite H5
  end.
  exists sd, fs, ns, ts,
    ((History ticker "2d" :: l1)
       ++ (HttpGet (url_13f 10) user_agent 15 :: l2)
       ++ (FeedParse (news_url ticker) :: l3)
       ++ (HttpGet (url_form4 10) user_agent 15 :: l4) ++ l5).
  split; [|split].
  - rewrite <- !app_assoc. reflexivity.
  - rewrite !requests_of_app. simpl. rewrite R1, R2, R3, R4, R5. reflexivity.
  - rewrite !sends_app. simpl. rewrite S1, S2, S3, S4, S5. reflexivity.
Qed.

(** X14: whatever the outside answers, a run asks for each of its four
    sources exactly once and in a fixed order (prices, 13F listing, news
    feed, Form 4 listing); nothing is asked twice. *)
Theorem run_and_notify_requests W L ticker tr :
  exists result tr',
    run_and_notify W L ticker tr = (Return result, tr ++ tr')
    /\ requests_of tr'
       = [History ticker "2d"; HttpGet (url_13f 10) user_agent 15;
          FeedParse (news_url ticker); HttpGet (url_form4 10) user_agent 15].
Proof.
  destruct (run_and_notify_trace W L ticker tr)
    as (sd & fs & ns & ts & tr' & Hrun & Hreq & _).
  eexists. exists tr'. split; [exact Hrun|exact Hreq].
Qed.

Lemma string_app_assoc (a b c : string) : ((a ++ b) ++ c = a ++ (b ++ c))%string.
Proof.
  induction a as [|x a IH]; [reflexivity|]. simpl. rewrite IH. reflexivity.
Qed.

(** The message ends with the score in decimal, in either language. *)
Lemma build_message_ends W L ticker stock_data nf nn nt score :
  exists pre,
    build_message W L ticker stock_data nf nn nt score
    = (pre ++ Py.str_int score)%string.
Proof.
  unfold build_message. destruct (String.eqb (LANG W) "he");
    eexists; rewrite <- !string_app_assoc; reflexivity.
Qed.

(** X15: a run notifies consistently: if the notifier is configured every
    recipient is sent one and the same text, once, in list order, and that
    text ends with the score the run returns; if it is not configured
    nothing is sent. The fetchers themselves send nothing. *)
Theorem run_and_notify_notifies W L ticker tr :
  exists score message pre tr',
    run_and_notify W L ticker tr = (Return (RunResult.mk ticker score), tr ++ tr')
    /\ message = (pre ++ Py.str_int score)%string
    /\ sends tr'
       = match bot W with
         | Some _ => map (fun cid => (cid, message)) (CHAT_IDS W)
         | None => []
         end.
Proof.
  destruct (run_and_notify_trace W L ticker tr)
    as (sd & fs & ns & ts & tr' & Hrun & _ & Hsends).
  destruct (build_message_ends W L ticker sd (Py.len fs) (Py.len ns) (Py.len ts)
              (score_opportunity sd (Py.len fs) (Py.len ns) (Py.len ts)))
    as (pre & Hpre).
  exists (score_opportunity sd (Py.len fs) (Py.len ns) (Py.len ts)).
  exists (build_message W L ticker sd (Py.len fs) (Py.len ns) (Py.len ts)
            (score_opportunity sd (Py.len fs) (Py.len ns) (Py.len ts))).
  exists pre, tr'. split; [exact Hrun|]. split; [exact Hpre|exact Hsends].
Qed.

Lemma get_stock_price_down W ticker tr e :
  history W tr ticker "2d" = Raise e ->
  exists tr', get_stock_price W ticker tr = (Return None, tr').
Proof.
  intros Hhist. eexists. unfold get_stock_price.
  rewrite (try_except_raise _ _ tr e (tr ++ [History ticker "2d"])).
  - reflexivity.
  - rewrite get_stock_price_body_cases, Hhist. reflexivity.
Qed.

Lemma get_recent_13f_filings_down W L count tr e :
  requests_get W tr (url_13f count) = Raise e ->
  exists tr', get_recent_13f_filings W L count tr = (Return [], tr').
Proof.
  intros Hget. eexists. unfold get_recent_13f_filings.
  rewrite (try_except_raise _ _ _ _ _ (get_recent_13f_filings_body_down _ L _ _ _ Hget)).
  reflexivity.
Qed.

Lemma get_recent_politician_trades_down W L count tr e :
  requests_get W tr (url_form4 count) = Raise e ->
  exists tr', get_recent_politician_trades W L count tr = (Return [], tr').
Proof.
  intros Hget. eexists. unfold get_recent_politician_trades.
  rewrite (try_except_raise _ _ _ _ _
             (get_recent_politician_trades_body_down _ L _ _ _ Hget)).
  reflexivity.
Qed.

Lemma get_google_news_rss_down W query max_items tr e :
  feedparser_parse W tr (news_url query) = Raise e ->
  exists tr', get_google_news_rss W query max_items tr = (Return [], tr').
Proof.
  intros Hfeed. eexists. unfold get_google_news_rss.
  rewrite (try_except_raise _ _ tr e (tr ++ [FeedParse (news_url query)])).
  - reflexivity.
  - rewrite get_google_news_rss_body_cases, Hfeed. reflexivity.
Qed.

(** X16: an outage looks like a quiet day: when the market data, both
    listings and the feed all fail, the run still completes and returns the
    score 0 for the ticker. *)
Theorem run_and_notify_all_down W L ticker tr :
  (forall tr0, exists e, history W tr0 ticker "2d" = Raise e) ->
  (forall tr0 url, exists e, requests_get W tr0 url = Raise e) ->
  (forall tr0 url, exists e, feedparser_parse W tr0 url = Raise e) ->
  exists tr', run_and_notify W L ticker tr = (Return (RunResult.mk ticker 0), tr').
Proof.
  intros Hhist Hget Hfeed. unfold run_and_notify, bind.
  destruct (Hhist tr) as (e1 & He1).
  destruct (get_stock_price_down W ticker tr e1 He1) as (tr1 & H1). rewrite H1.
  destruct (Hget tr1 (url_13f 10)) as (e2 & He2).
  destruct (get_recent_13f_filings_down W L 10 tr1 e2 He2) as (tr2 & H2). rewrite H2.
  destruct (Hfeed tr2 (news_url ticker)) as (e3 & He3).
  destruct (get_google_news_rss_down W ticker 5 tr2 e3 He3) as (tr3 & H3). rewrite H3.
  destruct (Hget tr3 (url_form4 10)) as (e4 & He4).
  destruct (get_recent_politician_trades_down W L 10 tr3 e4 He4) as (tr4 & H4).
  rewrite H4.
  match goal with
  | |- context [send_telegram_message W ?m tr4] =>
      destruct (send_telegram_message_returns W m tr4) as (tr5 & H5); rewrite H5
  end.
  exists tr5. reflexivity.
Qed.

Lemma run_and_notify_all_down_witness :
  exists tr',
    run_and_notify Sample.offline (Sample.library Sample.good_page) "MSFT" []
    = (Return (RunResult.mk "MSFT" 0), tr').
Proof.
  apply (run_and_notify_all_down Sample.offline (Sample.library Sample.good_page)
           "MSFT" []).
  - intros tr0. exists Sample.unreachable. reflexivity.
  - intros tr0 url. exists Sample.unreachable. reflexivity.
  - intros tr0 url. exists Sample.unreachable. reflexivity.
Defined.

Example run_and_notify_reliable :
  requests_of (snd (run_and_notify Sample.reliable (Sample.library Sample.good_page)
                      "MSFT" []))
  = [History "MSFT" "2d"; HttpGet (url_13f 10) user_agent 15;
     FeedParse (news_url "MSFT"); HttpGet (url_form4 10) user_agent 15]
  /\ map fst (sends (snd (run_and_notify Sample.reliable
                            (Sample.library Sample.good_page) "MSFT" [])))
     = ["111"; "222"; "333"]%string.
Proof. split; reflexivity. Qed.

(* ================================================================== *)
(** ** The ticker loader and negative limits *)

(** X18: a negative limit is not rejected: with a readable file the loader
    drops the last [-limit] symbols of what it returns without a limit (all
    of them when there are not that many). *)
Theorem load_tickers_negative_limit W path n tr raw full tr' :
  n < 0 ->
  readlines W tr path = Return raw ->
  load_tickers W path None tr = (Return full, tr') ->
  load_tickers W path (Some n) tr
  = (Return (firstn (List.length full - Z.to_nat (- n)) full), tr').
Proof.
  intros Hn Hread.
  rewrite !(load_tickers_readable _ _ _ _ _ Hread). simpl truncate.
  intros H. injection H as Hfull Htr. subst full tr'.
  assert (Hnz : (n =? 0) = false) by (apply Z.eqb_neq; lia).
  assert (Hneg : (n <? 0) = true) by (apply Z.ltb_lt; lia).
  rewrite Hnz. unfold Py.slice_to. rewrite Hneg. unfold Py.len.
  match goal with
  | |- context [firstn (Z.to_nat (Z.of_nat ?k + n))] =>
      replace (Z.to_nat (Z.of_nat k + n)) with (k - Z.to_nat (- n))%nat by lia
  end.
  reflexivity.
Qed.

Lemma load_tickers_negative_limit_witness :
  load_tickers (Sample.online [] Sample.ticker_lines) "tickers.txt" (Some (-1)) []
  = (Return (firstn (List.length ["MSFT"; "AAPL"; "NVDA"]%string - Z.to_nat (- (-1)))
               ["MSFT"; "AAPL"; "NVDA"]%string),
     [OpenRead "tickers.txt"]).
Proof.
  apply (load_tickers_negative_limit (Sample.online [] Sample.ticker_lines)
           "tickers.txt" (-1) [] Sample.ticker_lines).
  - lia.
  - reflexivity.
  - reflexivity.
Defined.
